(** * The user resource service of the furniture shop (main.go)

    A shallow embedding of the handlers [createUser], [getUserByID],
    [updateUser], [deleteUser], [getAllUsers] and of the start-up sequence
    [createUsersCollection], [addAgeField], [main], together with the part
    of the document store they talk to: BSON documents, the struct codec
    that turns a [User] into a document and back, and the collection
    operations InsertOne, FindOne, UpdateOne, UpdateMany, DeleteOne, Find.

    Conventions.
    - A collection is the list of its documents in natural (insertion)
      order; a document is the ordered list of its elements.
    - [time.Time] is an instant in nanoseconds since the Unix epoch; a
      BSON date is an instant in milliseconds since the Unix epoch.
    - Every reading of the clock, every identifier the driver generates
      and the outcome of every round trip to the server ([fault]) is an
      explicit argument of the function that performs it. A write that
      fails may or may not have taken effect on the server; the fault
      says which. *)

From Stdlib Require Import ZArith NArith List Bool Lia.
From Stdlib.Strings Require Import String Ascii Byte.
Import ListNotations.

Local Open Scope string_scope.
Local Open Scope list_scope.
Local Open Scope Z_scope.

(** ** encoding/hex *)

Module hex.

Definition hextable : string := "0123456789abcdef".

Definition encodeNibble (n : N) : ascii :=
  match String.get (N.to_nat n) hextable with
  | Some c => c
  | None => "0"%char
  end.

(** [fromHexChar]: digits, lower-case and upper-case letters. *)
Definition fromHexChar (c : ascii) : option N :=
  let n := N_of_ascii c in
  if (48 <=? n)%N && (n <=? 57)%N then Some (n - 48)%N
  else if (97 <=? n)%N && (n <=? 102)%N then Some (n - 97 + 10)%N
  else if (65 <=? n)%N && (n <=? 70)%N then Some (n - 65 + 10)%N
  else None.

Fixpoint EncodeToString (bs : list byte) : string :=
  match bs with
  | [] => EmptyString
  | b :: r =>
      String (encodeNibble (Byte.to_N b / 16))
        (String (encodeNibble (Byte.to_N b mod 16)) (EncodeToString r))
  end.

(** [DecodeString]: an odd length or a character that is not a hex digit
    is an error. *)
Fixpoint DecodeString (s : string) : option (list byte) :=
  match s with
  | EmptyString => Some []
  | String _ EmptyString => None
  | String h (String l r) =>
      match fromHexChar h, fromHexChar l, DecodeString r with
      | Some a, Some b, Some bs =>
          match Byte.of_N (a * 16 + b) with
          | Some x => Some (x :: bs)
          | None => None
          end
      | _, _, _ => None
      end
  end.

End hex.

(** ** primitive.ObjectID: a [12]byte array *)

Definition ObjectID : Type :=
  (byte * byte * byte * byte * byte * byte *
   byte * byte * byte * byte * byte * byte)%type.

Definition NilObjectID : ObjectID :=
  (x00, x00, x00, x00, x00, x00, x00, x00, x00, x00, x00, x00).

Definition oid_bytes (o : ObjectID) : list byte :=
  let '(b0, b1, b2, b3, b4, b5, b6, b7, b8, b9, b10, b11) := o in
  [b0; b1; b2; b3; b4; b5; b6; b7; b8; b9; b10; b11].

Definition oid_of_bytes (l : list byte) : option ObjectID :=
  match l with
  | [b0; b1; b2; b3; b4; b5; b6; b7; b8; b9; b10; b11] =>
      Some (b0, b1, b2, b3, b4, b5, b6, b7, b8, b9, b10, b11)
  | _ => None
  end.

Definition bytes_eqb (a b : list byte) : bool :=
  if list_eq_dec Byte.byte_eq_dec a b then true else false.

Definition oid_eqb (a b : ObjectID) : bool :=
  bytes_eqb (oid_bytes a) (oid_bytes b).

(** [ObjectID.IsZero] *)
Definition IsZero (o : ObjectID) : bool := oid_eqb o NilObjectID.

(** [ObjectID.Hex] *)
Definition Hex (o : ObjectID) : string := hex.EncodeToString (oid_bytes o).

(** [primitive.ObjectIDFromHex]: the string must have 24 bytes, all of
    them hex digits; on an error the identifier returned is
    [NilObjectID]. The second component tells whether parsing
    succeeded. *)
Definition ObjectIDFromHex (s : string) : ObjectID * bool :=
  if negb (Nat.eqb (String.length s) 24) then (NilObjectID, false)
  else
    match hex.DecodeString s with
    | None => (NilObjectID, false)
    | Some b =>
        match oid_of_bytes b with
        | Some o => (o, true)
        | None => (NilObjectID, false)
        end
    end.

(** ** time.Time and the BSON date *)

Definition Time : Type := Z.

(** The zero [time.Time], January 1 of year 1, 00:00:00 UTC. *)
Definition zeroTime : Time := -62135596800 * 1000000000.

(** [primitive.NewDateTimeFromTime]: whole milliseconds since the epoch,
    [t.Unix()*1e3 + t.Nanosecond()/1e6]. *)
Definition NewDateTimeFromTime (t : Time) : Z := t / 1000000.

(** [DateTime.Time]: [time.Unix(ms/1000, ms%1000*1e6)]. *)
Definition DateTimeToTime (ms : Z) : Time := ms * 1000000.

(** ** BSON values and documents

    The value types that occur in the users collection: the ones the
    program writes (string, 32- and 64-bit integer, date, ObjectID) and
    null. A document keeps its elements in order. *)

Inductive bson_value : Type :=
| BString (s : string)
| BInt32 (z : Z)
| BInt64 (z : Z)
| BDateTime (ms : Z)
| BObjectID (o : ObjectID)
| BNull.

Definition document : Type := list (string * bson_value).
Definition collection : Type := list document.

(** Equality of values as the server compares them: numbers by value,
    whatever their width. *)
Definition bson_eqb (a b : bson_value) : bool :=
  match a, b with
  | BString x, BString y => String.eqb x y
  | BInt32 x, BInt32 y | BInt32 x, BInt64 y
  | BInt64 x, BInt32 y | BInt64 x, BInt64 y => Z.eqb x y
  | BDateTime x, BDateTime y => Z.eqb x y
  | BObjectID x, BObjectID y => oid_eqb x y
  | BNull, BNull => true
  | _, _ => false
  end.

Fixpoint lookup (k : string) (d : document) : option bson_value :=
  match d with
  | [] => None
  | (k', v) :: r => if String.eqb k k' then Some v else lookup k r
  end.

(** One field of a [$set]: the value of an existing field is replaced in
    place, a missing field is added at the end. *)
Fixpoint set_field (k : string) (v : bson_value) (d : document) : document :=
  match d with
  | [] => [(k, v)]
  | (k', v') :: r =>
      if String.eqb k k' then (k', v) :: r else (k', v') :: set_field k v r
  end.

Definition apply_set (fields : document) (d : document) : document :=
  fold_left (fun acc kv => set_field (fst kv) (snd kv) acc) fields d.

(** The filter [bson.M{"_id": objID}]. *)
Definition matches_id (objID : ObjectID) (d : document) : bool :=
  match lookup "_id" d with
  | Some v => bson_eqb v (BObjectID objID)
  | None => false
  end.

(** ** JSON values

    A request body is read by [json.NewDecoder(r.Body).Decode]: the first
    JSON value of the body, when there is one. A number literal is either
    a plain integer, or has a fraction or an exponent ([JFloat] keeps the
    literal). *)

#[local] Unset Elimination Schemes.
Inductive json : Type :=
| JNull
| JBool (b : bool)
| JInt (z : Z)
| JFloat (lit : string)
| JString (s : string)
| JArray (l : list json)
| JObject (members : list (string * json)).
#[local] Set Elimination Schemes.

(** Library code that the program reaches only through the codecs, and
    whose behaviour the development does not fix.
    - [objectIDUnmarshalJSON], [timeUnmarshalJSON]: the [UnmarshalJSON]
      methods of [primitive.ObjectID] and [time.Time] (the receiver before
      the call is the second argument; [None] is an error).
    - the lenient conversions of the BSON default codecs between value
      types: a string read into a time or an ObjectID field, an ObjectID
      read into a string field. *)
Class Externals : Type := {
  objectIDUnmarshalJSON : json -> ObjectID -> option ObjectID;
  timeUnmarshalJSON : json -> Time -> option Time;
  timeFromBSONString : string -> option Time;
  objectIDFromBSONString : string -> option ObjectID;
  stringFromBSONObjectID : ObjectID -> option string
}.

(** ** The User struct *)

Record User : Type := mkUser {
  ID : ObjectID;
  Name : string;
  Email : string;
  Age : Z;
  CreatedAt : Time;
  UpdatedAt : Time;
  Version : Z
}.

(** [var user User] *)
Definition zeroUser : User := mkUser NilObjectID "" "" 0 zeroTime zeroTime 0.

Inductive UserField : Type :=
| FID | FName | FEmail | FAge | FCreatedAt | FUpdatedAt | FVersion.

Definition allFields : list UserField :=
  [FID; FName; FEmail; FAge; FCreatedAt; FUpdatedAt; FVersion].

Definition with_ID (x : ObjectID) (u : User) : User :=
  mkUser x (Name u) (Email u) (Age u) (CreatedAt u) (UpdatedAt u) (Version u).
Definition with_Name (x : string) (u : User) : User :=
  mkUser (ID u) x (Email u) (Age u) (CreatedAt u) (UpdatedAt u) (Version u).
Definition with_Email (x : string) (u : User) : User :=
  mkUser (ID u) (Name u) x (Age u) (CreatedAt u) (UpdatedAt u) (Version u).
Definition with_Age (x : Z) (u : User) : User :=
  mkUser (ID u) (Name u) (Email u) x (CreatedAt u) (UpdatedAt u) (Version u).
Definition with_CreatedAt (x : Time) (u : User) : User :=
  mkUser (ID u) (Name u) (Email u) (Age u) x (UpdatedAt u) (Version u).
Definition with_UpdatedAt (x : Time) (u : User) : User :=
  mkUser (ID u) (Name u) (Email u) (Age u) (CreatedAt u) x (Version u).
Definition with_Version (x : Z) (u : User) : User :=
  mkUser (ID u) (Name u) (Email u) (Age u) (CreatedAt u) (UpdatedAt u) x.

(** ** Matching of keys to struct fields *)

Definition asciiLower (c : ascii) : ascii :=
  let n := N_of_ascii c in
  if (65 <=? n)%N && (n <=? 90)%N then ascii_of_N (n + 32) else c.

Definition is_byte (c : ascii) (n : N) : bool := N.eqb (N_of_ascii c) n.

(** encoding/json compares an object key with a field name under Unicode
    simple case folding. For the ASCII names of [User] that is: ASCII
    letters without their case, the long s (U+017F, bytes C5 BF) as s and
    the Kelvin sign (U+212A, bytes E2 84 AA) as k. *)
Fixpoint foldName (s : string) : string :=
  match s with
  | EmptyString => EmptyString
  | String c r =>
      match r with
      | String c1 r1 =>
          if is_byte c 197 && is_byte c1 191 then String "s" (foldName r1)
          else
            match r1 with
            | String c2 r2 =>
                if is_byte c 226 && is_byte c1 132 && is_byte c2 170
                then String "k" (foldName r2)
                else String (asciiLower c) (foldName r)
            | EmptyString => String (asciiLower c) (foldName r)
            end
      | EmptyString => String (asciiLower c) EmptyString
      end
  end.

(** The Go name of a field: [User] has no json tags. *)
Definition goName (f : UserField) : string :=
  match f with
  | FID => "ID" | FName => "Name" | FEmail => "Email" | FAge => "Age"
  | FCreatedAt => "CreatedAt" | FUpdatedAt => "UpdatedAt"
  | FVersion => "Version"
  end.

Definition jsonField (key : string) : option UserField :=
  find (fun f => String.eqb (foldName key) (foldName (goName f))) allFields.

(** The bson tag of a field. *)
Definition bsonName (f : UserField) : string :=
  match f with
  | FID => "_id" | FName => "name" | FEmail => "email" | FAge => "age"
  | FCreatedAt => "created_at" | FUpdatedAt => "updated_at"
  | FVersion => "version"
  end.

(** [strings.ToLower] as far as it can produce an ASCII key: ASCII
    letters, the capital I with dot (U+0130, bytes C4 B0) to i and the
    Kelvin sign to k. *)
Fixpoint ToLower (s : string) : string :=
  match s with
  | EmptyString => EmptyString
  | String c r =>
      match r with
      | String c1 r1 =>
          if is_byte c 196 && is_byte c1 176 then String "i" (ToLower r1)
          else
            match r1 with
            | String c2 r2 =>
                if is_byte c 226 && is_byte c1 132 && is_byte c2 170
                then String "k" (ToLower r2)
                else String (asciiLower c) (ToLower r)
            | EmptyString => String (asciiLower c) (ToLower r)
            end
      | EmptyString => String (asciiLower c) EmptyString
      end
  end.

(** The struct codec looks an element's key up among the bson names, and
    when that fails looks up the key in lower case. *)
Definition bsonField (key : string) : option UserField :=
  match find (fun f => String.eqb key (bsonName f)) allFields with
  | Some f => Some f
  | None => find (fun f => String.eqb (ToLower key) (bsonName f)) allFields
  end.

Section Service.

Context {ext : Externals}.

(** ** encoding/json into the request structs *)

(** A Go [int] has 64 bits. *)
Definition fitsInt64 (z : Z) : bool :=
  (-9223372036854775808 <=? z) && (z <=? 9223372036854775807).

(** A JSON value stored into a Go value of type [T]; the second argument
    is the value before. [None] is an error of the decoder. A JSON null
    leaves a string or an int as it is. *)
Class JSONStore (T : Type) : Type := jsonStore : json -> T -> option T.

#[local] Instance string_JSONStore : JSONStore string :=
  fun j old =>
    match j with
    | JString s => Some s
    | JNull => Some old
    | _ => None
    end.

#[local] Instance int_JSONStore : JSONStore Z :=
  fun j old =>
    match j with
    | JInt z => if fitsInt64 z then Some z else None
    | JNull => Some old
    | _ => None
    end.

#[local] Instance ObjectID_JSONStore : JSONStore ObjectID :=
  objectIDUnmarshalJSON.

(** [Time] is [Z] underneath, so the time fields name this function. *)
Definition time_jsonStore : json -> Time -> option Time := timeUnmarshalJSON.

(** One member of a JSON object stored into a [User]. A key that matches
    no field is skipped. *)
Definition storeMember (key : string) (v : json) (u : User) : option User :=
  match jsonField key with
  | None => Some u
  | Some FID => option_map (fun x => with_ID x u) (jsonStore v (ID u))
  | Some FName => option_map (fun x => with_Name x u) (jsonStore v (Name u))
  | Some FEmail => option_map (fun x => with_Email x u) (jsonStore v (Email u))
  | Some FAge => option_map (fun x => with_Age x u) (jsonStore v (Age u))
  | Some FCreatedAt =>
      option_map (fun x => with_CreatedAt x u) (time_jsonStore v (CreatedAt u))
  | Some FUpdatedAt =>
      option_map (fun x => with_UpdatedAt x u) (time_jsonStore v (UpdatedAt u))
  | Some FVersion =>
      option_map (fun x => with_Version x u) (jsonStore v (Version u))
  end.

(** The members are stored in order, a later one over an earlier one. The
    decoder goes on after a member that cannot be stored and reports the
    error at the end; the handlers drop the struct then, so the model
    keeps only that there was an error. *)
Fixpoint storeMembers (m : list (string * json)) (u : User) : option User :=
  match m with
  | [] => Some u
  | (k, v) :: r =>
      match storeMember k v u with
      | Some u' => storeMembers r u'
      | None => None
      end
  end.

(** [json.NewDecoder(r.Body).Decode(&newUser)]; [body] is [None] when no
    JSON value can be read from the body. *)
Definition decodeUserJSON (body : option json) : option User :=
  match body with
  | None => None
  | Some JNull => Some zeroUser
  | Some (JObject m) => storeMembers m zeroUser
  | Some _ => None
  end.

(** The anonymous struct of [updateUser], with its one field tagged
    [json:"name"]. *)
Fixpoint storeNameMembers (m : list (string * json)) (name : string)
  : option string :=
  match m with
  | [] => Some name
  | (k, v) :: r =>
      if String.eqb (foldName k) (foldName "name") then
        match jsonStore v name with
        | Some name' => storeNameMembers r name'
        | None => None
        end
      else storeNameMembers r name
  end.

Definition decodeUpdateJSON (body : option json) : option string :=
  match body with
  | None => None
  | Some JNull => Some ""
  | Some (JObject m) => storeNameMembers m ""
  | Some _ => None
  end.

(** ** The BSON struct codec for User *)

Definition fitsIn32Bits (z : Z) : bool :=
  (-2147483648 <=? z) && (z <=? 2147483647).

(** A Go [int] is written as a 32-bit integer when it fits. *)
Definition encodeInt (z : Z) : bson_value :=
  if fitsIn32Bits z then BInt32 z else BInt64 z.

Definition encodeTime (t : Time) : bson_value :=
  BDateTime (NewDateTimeFromTime t).

(** [bson.Marshal] of a [User]: the fields in the order of the struct,
    [_id] and [age] left out when they are zero ([omitempty]). *)
Definition marshalUser (u : User) : document :=
  ((if IsZero (ID u) then [] else [("_id", BObjectID (ID u))])
   ++ [("name", BString (Name u)); ("email", BString (Email u))]
   ++ (if Z.eqb (Age u) 0 then [] else [("age", encodeInt (Age u))])
   ++ [("created_at", encodeTime (CreatedAt u));
       ("updated_at", encodeTime (UpdatedAt u));
       ("version", encodeInt (Version u))]).

Definition decodeString (v : bson_value) : option string :=
  match v with
  | BString s => Some s
  | BNull => Some ""
  | BObjectID o => stringFromBSONObjectID o
  | _ => None
  end.

Definition decodeInt (v : bson_value) : option Z :=
  match v with
  | BInt32 z | BInt64 z => Some z
  | BNull => Some 0
  | _ => None
  end.

Definition decodeTime (v : bson_value) : option Time :=
  match v with
  | BDateTime ms | BInt64 ms => Some (DateTimeToTime ms)
  | BString s => timeFromBSONString s
  | BNull => Some zeroTime
  | _ => None
  end.

Definition decodeObjectID (v : bson_value) : option ObjectID :=
  match v with
  | BObjectID o => Some o
  | BString s => objectIDFromBSONString s
  | BNull => Some NilObjectID
  | _ => None
  end.

(** One element of a document decoded into a [User]; an element whose
    key matches no field is skipped. *)
Definition decodeElement (key : string) (v : bson_value) (u : User)
  : option User :=
  match bsonField key with
  | None => Some u
  | Some FID => option_map (fun x => with_ID x u) (decodeObjectID v)
  | Some FName => option_map (fun x => with_Name x u) (decodeString v)
  | Some FEmail => option_map (fun x => with_Email x u) (decodeString v)
  | Some FAge => option_map (fun x => with_Age x u) (decodeInt v)
  | Some FCreatedAt => option_map (fun x => with_CreatedAt x u) (decodeTime v)
  | Some FUpdatedAt => option_map (fun x => with_UpdatedAt x u) (decodeTime v)
  | Some FVersion => option_map (fun x => with_Version x u) (decodeInt v)
  end.

Inductive error : Type :=
| ErrJSON
| ErrStore (msg : string)
| ErrDuplicateKey
| ErrNoDocuments
| ErrDecode (key : string).

(** The elements are decoded in the order of the document. Decoding stops
    at the first element that fails, and the fields set before stay
    set. *)
Fixpoint decodeElements (d : document) (u : User) : User * option error :=
  match d with
  | [] => (u, None)
  | (k, v) :: r =>
      match decodeElement k v u with
      | Some u' => decodeElements r u'
      | None => (u, Some (ErrDecode k))
      end
  end.

(** [Decode(&user)] into a fresh [var user User]. *)
Definition Decode (d : document) : User * option error :=
  decodeElements d zeroUser.

(** ** The collection operations of the driver

    [fault] is the outcome of the round trip to the server: [None] when
    the command returns, [Some _] when it fails (network, server,
    write concern). A read that fails has a message only. A write that
    fails may have taken effect all the same: the error can be reported
    after the server applied the write. *)

(** A write of one document that fails: the message, and whether the
    server had applied the write. *)
Record Fault : Type := { fault_msg : string; applied : bool }.

(** An [UpdateMany] that fails: the message, and for the documents of the
    collection, in order, whether the update had reached them (it is not
    atomic across documents); documents beyond the list were not
    reached. *)
Record ManyFault : Type := { many_msg : string; reached : list bool }.

Inductive result (A : Type) : Type :=
| Ok (a : A)
| Err (e : error).
Arguments Ok {A} a.
Arguments Err {A} e.

Record UpdateResult : Type := { MatchedCount : Z }.
Record DeleteResult : Type := { DeletedCount : Z }.

(** The driver adds an [_id] in front of a document that has none. *)
Definition ensureID (fresh : ObjectID) (doc : document)
  : document * bson_value :=
  match lookup "_id" doc with
  | Some v => (doc, v)
  | None => (("_id", BObjectID fresh) :: doc, BObjectID fresh)
  end.

Definition has_id (v : bson_value) (d : document) : bool :=
  match lookup "_id" d with
  | Some v' => bson_eqb v' v
  | None => false
  end.

(** [InsertOne]: the server refuses a document whose [_id] is already in
    the collection; otherwise the document goes to the end. *)
Definition InsertOne (fault : option Fault) (fresh : ObjectID)
  (doc : document) (c : collection) : collection * result bson_value :=
  let '(doc', id) := ensureID fresh doc in
  match fault with
  | Some f =>
      (if applied f && negb (existsb (has_id id) c) then c ++ [doc'] else c,
       Err (ErrStore (fault_msg f)))
  | None =>
      if existsb (has_id id) c then (c, Err ErrDuplicateKey)
      else ((c ++ [doc']), Ok id)
  end.

(** [FindOne] with the filter [{"_id": objID}]: the first match. *)
Definition FindOne (fault : option string) (objID : ObjectID) (c : collection)
  : result document :=
  match fault with
  | Some msg => Err (ErrStore msg)
  | None =>
      match find (matches_id objID) c with
      | Some d => Ok d
      | None => Err ErrNoDocuments
      end
  end.

Fixpoint updateFirst (p : document -> bool) (f : document -> document)
  (c : collection) : collection * Z :=
  match c with
  | [] => ([], 0)
  | d :: r =>
      if p d then (f d :: r, 1)
      else let '(r', n) := updateFirst p f r in (d :: r', n)
  end.

(** [UpdateOne] with the filter [{"_id": objID}] and the update
    [{"$set": fields}]. A filter that matches nothing is not an error:
    the result says [MatchedCount = 0]. *)
Definition UpdateOne (fault : option Fault) (objID : ObjectID)
  (fields : document) (c : collection) : collection * result UpdateResult :=
  match fault with
  | Some f =>
      (if applied f
       then fst (updateFirst (matches_id objID) (apply_set fields) c)
       else c,
       Err (ErrStore (fault_msg f)))
  | None =>
      let '(c', n) := updateFirst (matches_id objID) (apply_set fields) c in
      (c', Ok {| MatchedCount := n |})
  end.

Fixpoint updateWhere (sel : list bool) (f : document -> document)
  (c : collection) : collection :=
  match c, sel with
  | d :: r, b :: sel' => (if b then f d else d) :: updateWhere sel' f r
  | _, _ => c
  end.

(** [UpdateMany] with the empty filter [bson.D{}]. *)
Definition UpdateMany (fault : option ManyFault) (fields : document)
  (c : collection) : collection * result UpdateResult :=
  match fault with
  | Some f =>
      (updateWhere (reached f) (apply_set fields) c,
       Err (ErrStore (many_msg f)))
  | None =>
      (map (apply_set fields) c,
       Ok {| MatchedCount := Z.of_nat (List.length c) |})
  end.

Fixpoint deleteFirst (p : document -> bool) (c : collection)
  : collection * Z :=
  match c with
  | [] => ([], 0)
  | d :: r =>
      if p d then (r, 1)
      else let '(r', n) := deleteFirst p r in (d :: r', n)
  end.

(** [DeleteOne] with the filter [{"_id": objID}]. *)
Definition DeleteOne (fault : option Fault) (objID : ObjectID)
  (c : collection) : collection * result DeleteResult :=
  match fault with
  | Some f =>
      (if applied f then fst (deleteFirst (matches_id objID) c) else c,
       Err (ErrStore (fault_msg f)))
  | None =>
      let '(c', n) := deleteFirst (matches_id objID) c in
      (c', Ok {| DeletedCount := n |})
  end.

(** [Find] with the empty filter: a cursor over the whole collection. *)
Definition Find (fault : option string) (c : collection)
  : result (list document) :=
  match fault with
  | Some msg => Err (ErrStore msg)
  | None => Ok c
  end.

(** The documents that the loop over [cursor.Next] sees: all of them, or,
    when fetching a later batch fails ([stop = Some n]), the first [n];
    [Next] then says false as at the end. *)
Definition cursorDocuments (stop : option nat) (docs : list document)
  : list document :=
  match stop with
  | None => docs
  | Some n => firstn n docs
  end.

(** ** Requests and responses *)

Record Request : Type := {
  query_id : string;      (* r.URL.Query().Get("id") *)
  body : option json      (* what json.NewDecoder(r.Body) reads *)
}.

Inductive Payload : Type :=
| PError (e : error)                       (* http.Error(w, err.Error(), _) *)
| PInsertOneResult (InsertedID : bson_value)
| PUser (u : User)
| PUsers (us : list User)
| PEmpty.

Record Response : Type := { status : Z; payload : Payload }.

Definition StatusOK : Z := 200.
Definition StatusNoContent : Z := 204.
Definition StatusBadRequest : Z := 400.
Definition StatusNotFound : Z := 404.
Definition StatusInternalServerError : Z := 500.

Definition http_Error (e : error) (code : Z) : Response :=
  {| status := code; payload := PError e |}.

(** [Time.MarshalJSON] is an error for a year outside 0..9999; the
    bounds are the first second of year 0 and of year 10000 (UTC, which
    is the zone of a decoded time). *)
Definition yearInRange (t : Time) : bool :=
  (-62167219200 <=? t / 1000000000) && (t / 1000000000 <? 253402300800).

(** Whether [json.Marshal] of a [User] succeeds: its two times are the
    only fields that can fail. *)
Definition encodesUser (u : User) : bool :=
  yearInRange (CreatedAt u) && yearInRange (UpdatedAt u).

(** [json.NewEncoder(w).Encode(v)] with its error dropped: the encoder
    writes the value when it encodes and nothing when it does not, and
    the answer is 200 in both cases. *)
Definition Encode (encodes : bool) (p : Payload) : Response :=
  {| status := StatusOK; payload := if encodes then p else PEmpty |}.

(** ** The schema evolution steps *)

Definition sampleUser (created updated : Time) (version : Z) : User :=
  mkUser NilObjectID "John Doe" "john.doe@example.com" 0
    created updated version.

(** [createUsersCollection]: [t1] and [t2] are its two readings of the
    clock. *)
Definition createUsersCollection (t1 t2 : Time) (fresh : ObjectID)
  (fault : option Fault) (c : collection) : collection * option error :=
  match InsertOne fault fresh (marshalUser (sampleUser t1 t2 1)) c with
  | (c', Ok _) => (c', None)
  | (c', Err e) => (c', Some e)
  end.

Definition addAgeField (fault : option ManyFault) (c : collection)
  : collection * option error :=
  match UpdateMany fault [("age", encodeInt 0)] c with
  | (c', Ok _) => (c', None)
  | (c', Err e) => (c', Some e)
  end.

(** What [main] draws from the outside between the connection and the
    start of the listener. *)
Record StartupEnv : Type := {
  seed_t1 : Time; seed_t2 : Time;
  seed_id : ObjectID; seed_fault : option Fault;
  backfill_fault : option ManyFault;
  example_t1 : Time; example_t2 : Time;
  example_id : ObjectID; example_fault : option Fault
}.

(** [main] from the migrations to the registration of the routes. The
    boolean tells whether the listener is started. *)
Definition main (e : StartupEnv) (c : collection) : collection * bool :=
  match createUsersCollection (seed_t1 e) (seed_t2 e) (seed_id e)
          (seed_fault e) c with
  | (c1, Some _) => (c1, false)
  | (c1, None) =>
      match addAgeField (backfill_fault e) c1 with
      | (c2, Some _) => (c2, false)
      | (c2, None) =>
          let exampleUser := sampleUser (example_t1 e) (example_t2 e) 0 in
          match InsertOne (example_fault e) (example_id e)
                  (marshalUser exampleUser) c2 with
          | (c3, Err _) => (c3, false)
          | (c3, Ok _) => (c3, true)
          end
      end
  end.

(** ** The handlers *)

Definition createUser (now : Time) (fresh : ObjectID) (fault : option Fault)
  (r : Request) (c : collection) : collection * Response :=
  match decodeUserJSON (body r) with
  | None => (c, http_Error ErrJSON StatusBadRequest)
  | Some newUser =>
      let newUser := with_CreatedAt now newUser in
      let newUser := with_UpdatedAt (CreatedAt newUser) newUser in
      match InsertOne fault fresh (marshalUser newUser) c with
      | (c', Err e) => (c', http_Error e StatusInternalServerError)
      | (c', Ok insertResult) =>
          (c', {| status := StatusOK;
                  payload := PInsertOneResult insertResult |})
      end
  end.

Definition getUserByID (fault : option string) (r : Request) (c : collection)
  : Response :=
  let '(objID, _) := ObjectIDFromHex (query_id r) in
  match FindOne fault objID c with
  | Err e => http_Error e StatusNotFound
  | Ok d =>
      match Decode d with
      | (_, Some e) => http_Error e StatusNotFound
      | (user, None) => Encode (encodesUser user) (PUser user)
      end
  end.

Definition updateUser (now : Time) (fault : option Fault) (r : Request)
  (c : collection) : collection * Response :=
  let '(objID, _) := ObjectIDFromHex (query_id r) in
  match decodeUpdateJSON (body r) with
  | None => (c, http_Error ErrJSON StatusBadRequest)
  | Some name =>
      match UpdateOne fault objID
              [("name", BString name); ("updated_at", encodeTime now)] c with
      | (c', Err e) => (c', http_Error e StatusInternalServerError)
      | (c', Ok _) => (c', {| status := StatusNoContent; payload := PEmpty |})
      end
  end.

Definition deleteUser (fault : option Fault) (r : Request) (c : collection)
  : collection * Response :=
  let '(objID, _) := ObjectIDFromHex (query_id r) in
  match DeleteOne fault objID c with
  | (c', Err e) => (c', http_Error e StatusInternalServerError)
  | (c', Ok _) => (c', {| status := StatusNoContent; payload := PEmpty |})
  end.

(** The loop of [getAllUsers] appends the struct after every
    [cursor.Decode], whose error it does not look at. *)
Definition getAllUsers (fault : option string) (stop : option nat)
  (c : collection) : Response :=
  match Find fault c with
  | Err e => http_Error e StatusInternalServerError
  | Ok docs =>
      let users := map (fun d => fst (Decode d)) (cursorDocuments stop docs) in
      Encode (forallb encodesUser users) (PUsers users)
  end.

End Service.

Arguments Ok {A} a.
Arguments Err {A} e.

(** An instance of the library code, for the closed examples: ObjectIDs
    are read from their hex form, and of the RFC 3339 literals only the
    one of the epoch is known. *)
Definition exampleExternals : Externals := {|
  objectIDUnmarshalJSON := fun j old =>
    match j with
    | JNull => Some old
    | JString s =>
        if String.eqb s "" then Some NilObjectID
        else let '(o, ok) := ObjectIDFromHex s in if ok then Some o else None
    | _ => None
    end;
  timeUnmarshalJSON := fun j old =>
    match j with
    | JNull => Some old
    | JString s => if String.eqb s "1970-01-01T00:00:00Z" then Some 0 else None
    | _ => None
    end;
  timeFromBSONString := fun s =>
    if String.eqb s "1970-01-01T00:00:00Z" then Some 0 else None;
  objectIDFromBSONString := fun s =>
    let '(o, ok) := ObjectIDFromHex s in if ok then Some o else None;
  stringFromBSONObjectID := fun o => Some (Hex o)
|}.

(** Two identifiers and a well-formed create payload used below. *)
Definition oidA : ObjectID :=
  (x65, x4f, x1a, x2b, x3c, x4d, x5e, x6f, x70, x81, x92, xa3).
Definition oidB : ObjectID :=
  (x65, x4f, x1a, x2b, x3c, x4d, x5e, x6f, x70, x81, x92, xa4).

Definition annPayload : json :=
  JObject [("name", JString "Ann"); ("email", JString "ann@x.com")].

(** ** Documents and requests that the statements below name *)

(** The update document of [updateUser]. *)
Definition updateFields (name : string) (now : Time) : document :=
  [("name", BString name); ("updated_at", encodeTime now)].

(** Whether a JSON object has a member that the decoder takes for the
    name field of the struct of [updateUser]. *)
Definition hasNameMember (m : list (string * json)) : bool :=
  existsb (fun kv => String.eqb (foldName (fst kv)) (foldName "name")) m.

(** The identifier under which [InsertOne] stores a marshalled [User]:
    its own when it has one, the one the driver generates otherwise. *)
Definition insertedID (fresh : ObjectID) (u : User) : ObjectID :=
  if IsZero (ID u) then fresh else ID u.

(** The document that [InsertOne] stores for a marshalled [User]. *)
Definition storedDocument (id : ObjectID) (u : User) : document :=
  (("_id", BObjectID id)
   :: [("name", BString (Name u)); ("email", BString (Email u))]
   ++ (if Z.eqb (Age u) 0 then [] else [("age", encodeInt (Age u))])
   ++ [("created_at", encodeTime (CreatedAt u));
       ("updated_at", encodeTime (UpdatedAt u));
       ("version", encodeInt (Version u))]).

(** The struct that [createUser] inserts: the decoded one with both
    times overwritten. *)
Definition stamped (now : Time) (u : User) : User :=
  let newUser := with_CreatedAt now u in
  with_UpdatedAt (CreatedAt newUser) newUser.

(** The document of the seed step, as stored. *)
Definition seedDocument (id : ObjectID) (t1 t2 : Time) : document :=
  [("_id", BObjectID id);
   ("name", BString "John Doe");
   ("email", BString "john.doe@example.com");
   ("created_at", BDateTime (NewDateTimeFromTime t1));
   ("updated_at", BDateTime (NewDateTimeFromTime t2));
   ("version", BInt32 1)].

(** The document of the example user of [main], as stored. *)
Definition exampleDocument (id : ObjectID) (t1 t2 : Time) : document :=
  [("_id", BObjectID id);
   ("name", BString "John Doe");
   ("email", BString "john.doe@example.com");
   ("created_at", BDateTime (NewDateTimeFromTime t1));
   ("updated_at", BDateTime (NewDateTimeFromTime t2));
   ("version", BInt32 0)].

(** The update of the backfill step. *)
Definition backfill (d : document) : document :=
  apply_set [("age", encodeInt 0)] d.

(** A sample document: the name and the email of the seed, version 1. *)
Definition isSample (d : document) : bool :=
  match lookup "name" d, lookup "email" d, lookup "version" d with
  | Some n, Some m, Some v =>
      bson_eqb n (BString "John Doe")
      && bson_eqb m (BString "john.doe@example.com")
      && bson_eqb v (BInt32 1)
  | _, _, _ => false
  end.

Definition countSample (c : collection) : nat :=
  List.length (filter isSample c).

Definition oidC : ObjectID :=
  (x65, x50, x00, x00, x00, x00, x00, x00, x00, x00, x00, x01).

Definition oidD : ObjectID :=
  (x65, x50, x00, x00, x00, x00, x00, x00, x00, x00, x00, x02).

(** Ann, as [createUser] stores her at 1.7 ms after the epoch. *)
Definition annDocument : document :=
  [("_id", BObjectID oidA); ("name", BString "Ann");
   ("email", BString "ann@x.com");
   ("created_at", BDateTime 1); ("updated_at", BDateTime 1);
   ("version", BInt32 0)].

Definition createAnn : Request := {| query_id := ""; body := Some annPayload |}.

Definition renameTo (id : ObjectID) (name : string) : Request :=
  {| query_id := Hex id;
     body := Some (JObject [("name", JString name)]) |}.

(** A document whose name is a number, and one that decodes. *)
Definition numberNamed : document :=
  [("_id", BObjectID oidA); ("name", BInt32 42); ("email", BString "x")].

Definition bobDocument : document :=
  [("_id", BObjectID oidB); ("name", BString "Bob")].

Definition firstStart : StartupEnv := {|
  seed_t1 := 5000000; seed_t2 := 6000000;
  seed_id := oidA; seed_fault := None;
  backfill_fault := None;
  example_t1 := 7000000; example_t2 := 8000000;
  example_id := oidB; example_fault := None
|}.

Definition secondStart : StartupEnv := {|
  seed_t1 := 15000000; seed_t2 := 16000000;
  seed_id := oidC; seed_fault := None;
  backfill_fault := None;
  example_t1 := 17000000; example_t2 := 18000000;
  example_id := oidD; example_fault := None
|}.

Definition afterFirstStart : collection :=
  [backfill (seedDocument oidA 5000000 6000000);
   exampleDocument oidB 7000000 8000000].

(** The identifiers of a collection are unique: every document has an
    [_id], and no later document has an equal one. *)
Fixpoint unique_ids (c : collection) : bool :=
  match c with
  | [] => true
  | d :: r =>
      match lookup "_id" d with
      | Some v => negb (existsb (has_id v) r) && unique_ids r
      | None => false
      end
  end.

(** Whether a JSON object has a member that encoding/json stores into one
    of the fields selected by [p]. *)
Definition mentions (p : UserField -> bool) (m : list (string * json)) : bool :=
  existsb (fun kv => match jsonField (fst kv) with
                     | Some f => p f
                     | None => false
                     end) m.

Definition isNameField (f : UserField) : bool :=
  match f with FName => true | _ => false end.

Definition isEmailField (f : UserField) : bool :=
  match f with FEmail => true | _ => false end.

(** A store call that fails after the server applied the write. *)
Definition connectionReset : Fault :=
  {| fault_msg := "connection reset"; applied := true |}.

(** A document dated in the first millisecond of the year 10000. *)
Definition oldDocument : document :=
  [("_id", BObjectID oidA); ("name", BString "Old");
   ("created_at", BDateTime 253402300800000)].

(** Ann as her payload decodes, and as she is stored at 1.7 ms. *)
Definition annUser : User :=
  mkUser NilObjectID "Ann" "ann@x.com" 0 zeroTime zeroTime 0.

Definition annStored : User :=
  mkUser NilObjectID "Ann" "ann@x.com" 0 1700000 1700000 0.

Definition readOf (id : ObjectID) : Request :=
  {| query_id := Hex id; body := None |}.

(** A create request with an age and nothing else. *)
Definition createAged : Request :=
  {| query_id := ""; body := Some (JObject [("age", JInt 7)]) |}.

(** * Properties *)

(** ** Hex form of an identifier *)

Lemma DecodeString_EncodeToString_cons (b : byte) (bs : list byte) :
  hex.DecodeString (hex.EncodeToString (b :: bs)) =
  match hex.DecodeString (hex.EncodeToString bs) with
  | Some l => Some (b :: l)
  | None => None
  end.
Proof. destruct b; reflexivity. Qed.

Lemma DecodeString_EncodeToString (bs : list byte) :
  hex.DecodeString (hex.EncodeToString bs) = Some bs.
Proof.
  induction bs as [|b bs IH].
  - reflexivity.
  - rewrite DecodeString_EncodeToString_cons, IH. reflexivity.
Qed.

Lemma length_EncodeToString (bs : list byte) :
  String.length (hex.EncodeToString bs) = (2 * List.length bs)%nat.
Proof.
  induction bs as [|b bs IH]; [reflexivity|].
  cbn [hex.EncodeToString String.length List.length]. rewrite IH. lia.
Qed.

Lemma oid_of_bytes_oid_bytes (o : ObjectID) :
  oid_of_bytes (oid_bytes o) = Some o.
Proof.
  destruct o as [[[[[[[[[[[b0 b1] b2] b3] b4] b5] b6] b7] b8] b9] b10] b11].
  reflexivity.
Qed.

Lemma length_oid_bytes (o : ObjectID) : List.length (oid_bytes o) = 12%nat.
Proof.
  destruct o as [[[[[[[[[[[b0 b1] b2] b3] b4] b5] b6] b7] b8] b9] b10] b11].
  reflexivity.
Qed.

Lemma ObjectIDFromHex_Hex (o : ObjectID) : ObjectIDFromHex (Hex o) = (o, true).
Proof.
  unfold ObjectIDFromHex, Hex.
  rewrite length_EncodeToString, length_oid_bytes.
  cbn [Nat.mul Nat.add Nat.eqb negb].
  rewrite DecodeString_EncodeToString, oid_of_bytes_oid_bytes. reflexivity.
Qed.

Lemma ObjectIDFromHex_failure (s : string) :
  snd (ObjectIDFromHex s) = false -> fst (ObjectIDFromHex s) = NilObjectID.
Proof.
  unfold ObjectIDFromHex.
  destruct (negb (String.length s =? 24)%nat); [reflexivity|].
  destruct (hex.DecodeString s) as [b|]; [|reflexivity].
  destruct (oid_of_bytes b); [discriminate|reflexivity].
Qed.

Lemma oid_eqb_refl (o : ObjectID) : oid_eqb o o = true.
Proof.
  unfold oid_eqb, bytes_eqb.
  destruct (list_eq_dec byte_eq_dec (oid_bytes o) (oid_bytes o)); congruence.
Qed.

Lemma oid_eqb_eq (a b : ObjectID) : oid_eqb a b = true -> a = b.
Proof.
  unfold oid_eqb, bytes_eqb.
  destruct (list_eq_dec byte_eq_dec (oid_bytes a) (oid_bytes b)) as [E|];
    [intros _|discriminate].
  apply (f_equal oid_of_bytes) in E.
  rewrite !oid_of_bytes_oid_bytes in E. congruence.
Qed.

(** ** Documents *)

Lemma lookup_set_field (k k' : string) (v : bson_value) (d : document) :
  lookup k (set_field k' v d) =
  if String.eqb k k' then Some v else lookup k d.
Proof.
  induction d as [|[k0 v0] d IH]; cbn [set_field lookup].
  - destruct (String.eqb k k'); reflexivity.
  - destruct (String.eqb k' k0) eqn:E0; cbn [lookup].
    + apply String.eqb_eq in E0. subst k0.
      destruct (String.eqb k k'); reflexivity.
    + destruct (String.eqb k k0) eqn:E1.
      * apply String.eqb_eq in E1. subst k0.
        rewrite String.eqb_sym, E0. reflexivity.
      * exact IH.
Qed.

Lemma lookup_set_field_other (k k' : string) (v : bson_value) (d : document) :
  k <> k' -> lookup k (set_field k' v d) = lookup k d.
Proof.
  intros N. rewrite lookup_set_field.
  destruct (String.eqb k k') eqn:E; [|reflexivity].
  apply String.eqb_eq in E. contradiction.
Qed.

(** ** First match in a collection *)

Lemma updateFirst_none (p : document -> bool) (f : document -> document)
  (c : collection) :
  find p c = None -> updateFirst p f c = (c, 0).
Proof.
  induction c as [|d c IH]; cbn [find updateFirst]; [reflexivity|].
  destruct (p d); [discriminate|]. intros H. rewrite (IH H). reflexivity.
Qed.

Lemma updateFirst_some (p : document -> bool) (f : document -> document)
  (c : collection) (d : document) :
  find p c = Some d ->
  exists pre post,
    c = (pre ++ d :: post) /\
    updateFirst p f c = ((pre ++ f d :: post), 1) /\
    p d = true /\
    forallb (fun x => negb (p x)) pre = true.
Proof.
  induction c as [|x c IH]; cbn [find updateFirst]; [discriminate|].
  destruct (p x) eqn:Px.
  - intros H. injection H as ->. exists [], c. cbn. auto.
  - intros H. destruct (IH H) as (pre & post & -> & U & Pd & Npre).
    exists (x :: pre), post. rewrite U. cbn. rewrite Px. cbn. auto.
Qed.

Lemma deleteFirst_none (p : document -> bool) (c : collection) :
  find p c = None -> deleteFirst p c = (c, 0).
Proof.
  induction c as [|d c IH]; cbn [find deleteFirst]; [reflexivity|].
  destruct (p d); [discriminate|]. intros H. rewrite (IH H). reflexivity.
Qed.

Lemma find_none_existsb (p : document -> bool) (c : collection) :
  existsb p c = false -> find p c = None.
Proof.
  induction c as [|d c IH]; cbn [existsb find]; [reflexivity|].
  destruct (p d); [discriminate|]. exact IH.
Qed.


(** ** updateUser and deleteUser *)

Lemma lookup_updateFields_other (name : string) (now : Time) (d : document)
  (k : string) :
  k <> "name" -> k <> "updated_at" ->
  lookup k (apply_set (updateFields name now) d) = lookup k d.
Proof.
  intros N1 N2. cbn.
  rewrite !lookup_set_field_other by assumption. reflexivity.
Qed.

Lemma lookup_updateFields_name (name : string) (now : Time) (d : document) :
  lookup "name" (apply_set (updateFields name now) d) = Some (BString name).
Proof. cbn. rewrite !lookup_set_field. reflexivity. Qed.

Lemma lookup_updateFields_updated_at (name : string) (now : Time)
  (d : document) :
  lookup "updated_at" (apply_set (updateFields name now) d) =
  Some (BDateTime (NewDateTimeFromTime now)).
Proof. cbn. rewrite !lookup_set_field. reflexivity. Qed.

(** What [updateUser] does once its body is decoded and the store
    answers. *)
Lemma updateUser_decoded (now : Time) (r : Request) (c : collection)
  (name : string) :
  decodeUpdateJSON (body r) = Some name ->
  updateUser now None r c =
  (fst (updateFirst (matches_id (fst (ObjectIDFromHex (query_id r))))
          (apply_set (updateFields name now)) c),
   {| status := StatusNoContent; payload := PEmpty |}).
Proof.
  intros D. unfold updateUser, UpdateOne, updateFields.
  destruct (ObjectIDFromHex (query_id r)) as [objID ok]. rewrite D.
  cbn [fst].
  destruct (updateFirst (matches_id objID)
              (apply_set [("name", BString name);
                          ("updated_at", encodeTime now)]) c) as [c' n].
  reflexivity.
Qed.

Lemma updateUser_fault (now : Time) (r : Request) (c : collection)
  (name : string) (f : Fault) :
  decodeUpdateJSON (body r) = Some name ->
  updateUser now (Some f) r c =
  (if applied f
   then fst (updateFirst (matches_id (fst (ObjectIDFromHex (query_id r))))
               (apply_set (updateFields name now)) c)
   else c,
   http_Error (ErrStore (fault_msg f)) StatusInternalServerError).
Proof.
  intros D. unfold updateUser, UpdateOne, updateFields.
  destruct (ObjectIDFromHex (query_id r)) as [objID ok]. rewrite D.
  reflexivity.
Qed.

Lemma updateUser_undecoded (now : Time) (fault : option Fault) (r : Request)
  (c : collection) :
  decodeUpdateJSON (body r) = None ->
  updateUser now fault r c = (c, http_Error ErrJSON StatusBadRequest).
Proof.
  intros D. unfold updateUser.
  destruct (ObjectIDFromHex (query_id r)) as [objID ok]. rewrite D.
  reflexivity.
Qed.

(** C1, as amended. An update with a well-formed body whose identifier
    matches no document: when the store call returns without an error
    the handler answers 204 with an empty body and the collection is as
    before (UpdateOne reports the zero matches in its result, which the
    handler drops); it answers 500 when the store call itself errors. *)
Theorem C1_update_without_match (now : Time) (fault : option Fault)
  (r : Request) (c : collection) (name : string) :
  decodeUpdateJSON (body r) = Some name ->
  find (matches_id (fst (ObjectIDFromHex (query_id r)))) c = None ->
  (fault = None ->
   updateUser now fault r c =
   (c, {| status := StatusNoContent; payload := PEmpty |})) /\
  (forall f, fault = Some f ->
   updateUser now fault r c =
   (c, http_Error (ErrStore (fault_msg f)) StatusInternalServerError)).
Proof.
  intros D F. split.
  - intros ->. rewrite (updateUser_decoded _ _ _ _ D).
    rewrite (updateFirst_none _ _ _ F). reflexivity.
  - intros f ->. rewrite (updateUser_fault _ _ _ _ _ D).
    rewrite (updateFirst_none _ _ _ F). destruct (applied f); reflexivity.
Qed.

(** C6. After an update answered with 204 the collection is as before, or
    it differs in the one document matched (the first with the
    identifier), and in that document every field other than name and
    updated_at, so email, age, version and created_at, is as before. *)
Theorem C6_update_frame (now : Time) (fault : option Fault) (r : Request)
  (c c' : collection) (resp : Response) :
  updateUser now fault r c = (c', resp) ->
  status resp = StatusNoContent ->
  c' = c \/
  exists pre d d' post,
    c = (pre ++ d :: post) /\
    c' = (pre ++ d' :: post) /\
    find (matches_id (fst (ObjectIDFromHex (query_id r)))) c = Some d /\
    (forall k, k <> "name" -> k <> "updated_at" ->
               lookup k d' = lookup k d) /\
    lookup "email" d' = lookup "email" d /\
    lookup "age" d' = lookup "age" d /\
    lookup "version" d' = lookup "version" d /\
    lookup "created_at" d' = lookup "created_at" d.
Proof.
  intros U S.
  destruct (decodeUpdateJSON (body r)) as [name|] eqn:D.
  2:{ rewrite (updateUser_undecoded _ _ _ _ D) in U.
      injection U as <- <-. discriminate S. }
  destruct fault as [msg|].
  { rewrite (updateUser_fault _ _ _ _ _ D) in U.
    injection U as <- <-. discriminate S. }
  rewrite (updateUser_decoded _ _ _ _ D) in U. injection U as <- _.
  destruct (find (matches_id (fst (ObjectIDFromHex (query_id r)))) c)
    as [d|] eqn:F.
  - right.
    destruct (updateFirst_some _ (apply_set (updateFields name now)) _ _ F)
      as (pre & post & Ec & Eu & _ & _).
    exists pre, d, (apply_set (updateFields name now) d), post.
    rewrite Eu. cbn [fst].
    split; [exact Ec|]. split; [reflexivity|]. split; [reflexivity|].
    split; [intros k N1 N2; apply lookup_updateFields_other; assumption|].
    repeat split; apply lookup_updateFields_other; discriminate.
  - left. rewrite (updateFirst_none _ _ _ F). reflexivity.
Qed.

(** Without such a member the struct keeps its zero value. *)
Lemma storeNameMembers_absent (m : list (string * json)) (name : string) :
  hasNameMember m = false -> storeNameMembers m name = Some name.
Proof.
  unfold hasNameMember.
  induction m as [|[k v] m IH]; cbn [storeNameMembers existsb fst];
    [reflexivity|].
  destruct (String.eqb (foldName k) (foldName "name")); [discriminate|].
  exact IH.
Qed.

(** C10. An update whose body is a JSON object without a name member is
    not rejected: the name decodes to the empty string, the handler
    answers 204 when the store call returns, and the matched document
    gets the name "" and the current time as updated_at. *)
Theorem C10_update_without_name (now : Time) (r : Request) (c : collection)
  (m : list (string * json)) :
  body r = Some (JObject m) ->
  hasNameMember m = false ->
  decodeUpdateJSON (body r) = Some "" /\
  snd (updateUser now None r c) =
    {| status := StatusNoContent; payload := PEmpty |} /\
  forall d,
    find (matches_id (fst (ObjectIDFromHex (query_id r)))) c = Some d ->
    exists pre d' post,
      c = pre ++ d :: post /\
      fst (updateUser now None r c) = pre ++ d' :: post /\
      lookup "name" d' = Some (BString "") /\
      lookup "updated_at" d' = Some (BDateTime (NewDateTimeFromTime now)).
Proof.
  intros B A.
  assert (D : decodeUpdateJSON (body r) = Some "").
  { rewrite B. cbn [decodeUpdateJSON]. apply storeNameMembers_absent, A. }
  split; [exact D|].
  rewrite (updateUser_decoded _ _ _ _ D). cbn [fst snd].
  split; [reflexivity|].
  intros d F.
  destruct (updateFirst_some _ (apply_set (updateFields "" now)) _ _ F)
    as (pre & post & Ec & Eu & _ & _).
  exists pre, (apply_set (updateFields "" now) d), post.
  rewrite Eu. cbn [fst].
  repeat split.
  - exact Ec.
  - apply lookup_updateFields_name.
  - apply lookup_updateFields_updated_at.
Qed.

(** C7. A delete that matches no document answers 204 with an empty body
    and leaves the collection as it was; whatever it matches, a delete
    answers 204 with an empty body when the store call returns, and it
    answers 500 exactly when the store call itself errors. *)
Theorem C7_delete_outcome (fault : option Fault) (r : Request)
  (c : collection) :
  (find (matches_id (fst (ObjectIDFromHex (query_id r)))) c = None ->
   fault = None ->
   deleteUser fault r c =
   (c, {| status := StatusNoContent; payload := PEmpty |})) /\
  (fault = None ->
   snd (deleteUser fault r c) =
   {| status := StatusNoContent; payload := PEmpty |}) /\
  (status (snd (deleteUser fault r c)) = StatusInternalServerError <->
   exists f, fault = Some f).
Proof.
  unfold deleteUser, DeleteOne.
  destruct (ObjectIDFromHex (query_id r)) as [objID ok]. cbn [fst].
  repeat split.
  - intros F ->. rewrite (deleteFirst_none _ _ F). reflexivity.
  - intros ->. destruct (deleteFirst (matches_id objID) c). reflexivity.
  - destruct fault as [f|]; [intros _; exists f; reflexivity|].
    destruct (deleteFirst (matches_id objID) c). discriminate.
  - intros [f ->]. reflexivity.
Qed.

Section Codec.

Context {ext : Externals}.

(** ** getUserByID *)

(** C5, as amended. An identifier that does not parse is replaced by the
    zero ObjectID, with which the lookup goes on. The handler answers
    404 exactly when no document matches the identifier or the lookup
    errors (the store call fails, or the document found does not decode
    into a User). Otherwise it answers 200: with the document found,
    decoded, when that encodes as JSON, and with an empty body when it
    does not (a created_at or updated_at outside the years 0 to 9999),
    the error of the encoder being dropped. *)
Theorem C5_getUserByID_outcome (fault : option string) (r : Request)
  (c : collection) :
  let objID := fst (ObjectIDFromHex (query_id r)) in
  (snd (ObjectIDFromHex (query_id r)) = false -> objID = NilObjectID) /\
  (status (getUserByID fault r c) = StatusNotFound <->
   find (matches_id objID) c = None \/
   (exists msg, fault = Some msg) \/
   (exists d, find (matches_id objID) c = Some d /\ snd (Decode d) <> None)) /\
  (status (getUserByID fault r c) <> StatusNotFound ->
   exists d,
     find (matches_id objID) c = Some d /\
     snd (Decode d) = None /\
     getUserByID fault r c =
     {| status := StatusOK;
        payload := if encodesUser (fst (Decode d))
                   then PUser (fst (Decode d)) else PEmpty |}).
Proof.
  cbv zeta. split; [apply ObjectIDFromHex_failure|].
  unfold getUserByID, FindOne.
  destruct (ObjectIDFromHex (query_id r)) as [objID ok]. cbn [fst].
  destruct fault as [msg|].
  { split; [split|].
    - intros _. right. left. exists msg. reflexivity.
    - reflexivity.
    - intros N. exfalso. apply N. reflexivity. }
  destruct (find (matches_id objID) c) as [d|].
  2:{ split; [split|].
      - intros _. left. reflexivity.
      - reflexivity.
      - intros N. exfalso. apply N. reflexivity. }
  destruct (Decode d) as [user [e|]] eqn:D.
  - split; [split|].
    + intros _. right. right. exists d. rewrite D. split; [reflexivity|].
      discriminate.
    + reflexivity.
    + intros N. exfalso. apply N. reflexivity.
  - split; [split|].
    + discriminate.
    + intros [F|[[msg F]|(d' & F & N)]]; try discriminate.
      injection F as <-. rewrite D in N. exfalso. apply N. reflexivity.
    + intros _. exists d. rewrite D. repeat split.
Qed.

(** ** getAllUsers *)

(** Decoding stops at the first element that fails: the struct is then
    what the elements before made of it. *)
Lemma decodeElements_stop (d1 d2 : document) (k : string) (v : bson_value)
  (u u1 : User) :
  decodeElements d1 u = (u1, None) ->
  decodeElement k v u1 = None ->
  decodeElements (d1 ++ (k, v) :: d2) u = (u1, Some (ErrDecode k)).
Proof.
  revert u. induction d1 as [|[k0 v0] d1 IH]; intros u; cbn [decodeElements app].
  - intros E F. injection E as ->. rewrite F. reflexivity.
  - destruct (decodeElement k0 v0 u) as [u'|]; [apply IH|discriminate].
Qed.

(** C2, as amended. When the iteration opens, list-all answers 200 and
    surfaces no error. The list it builds has one entry for every
    document that the cursor delivers (every document of the collection
    when the iteration runs to its end), in order: the entry of a
    document is the struct as [Decode] left it, which for a document
    that decodes is the decoded document and for one that does not is
    the struct with the fields decoded before the failing element and
    zero values elsewhere. The body is that list when it encodes as
    JSON, and empty when it does not (an entry with a created_at or
    updated_at outside the years 0 to 9999): that error is dropped
    too. *)
Theorem C2_getAllUsers_entries (stop : option nat) (c : collection) :
  status (getAllUsers None stop c) = StatusOK /\
  exists us,
    payload (getAllUsers None stop c) =
      (if forallb encodesUser us then PUsers us else PEmpty) /\
    List.length us = List.length (cursorDocuments stop c) /\
    (stop = None -> List.length us = List.length c) /\
    (forall i d, nth_error (cursorDocuments stop c) i = Some d ->
                 nth_error us i = Some (fst (Decode d))) /\
    (forall d d1 d2 k v u1,
        In d (cursorDocuments stop c) -> d = (d1 ++ (k, v) :: d2) ->
        decodeElements d1 zeroUser = (u1, None) ->
        decodeElement k v u1 = None ->
        In u1 us).
Proof.
  split; [reflexivity|].
  exists (map (fun d => fst (Decode d)) (cursorDocuments stop c)).
  split; [reflexivity|].
  split; [apply length_map|]. split; [|split].
  - intros ->. apply length_map.
  - intros i d H. rewrite nth_error_map, H. reflexivity.
  - intros d d1 d2 k v u1 I -> E F.
    apply in_map_iff. exists (d1 ++ (k, v) :: d2).
    split; [|exact I]. unfold Decode.
    rewrite (decodeElements_stop _ _ _ _ _ _ E F). reflexivity.
Qed.

(** ** A User written by InsertOne and read back *)

Lemma ensureID_marshalUser (fresh : ObjectID) (u : User) :
  ensureID fresh (marshalUser u) =
  (storedDocument (insertedID fresh u) u, BObjectID (insertedID fresh u)).
Proof.
  unfold ensureID, marshalUser, storedDocument, insertedID.
  destruct (IsZero (ID u)); destruct (Z.eqb (Age u) 0); reflexivity.
Qed.

(** [InsertOne] of a marshalled [User], when it succeeds. *)
Lemma InsertOne_marshalUser (fault : option Fault) (fresh : ObjectID)
  (u : User) (c c' : collection) (id : bson_value) :
  InsertOne fault fresh (marshalUser u) c = (c', Ok id) ->
  fault = None /\
  existsb (has_id (BObjectID (insertedID fresh u))) c = false /\
  c' = (c ++ [storedDocument (insertedID fresh u) u]) /\
  id = BObjectID (insertedID fresh u).
Proof.
  unfold InsertOne. rewrite ensureID_marshalUser.
  destruct fault as [msg|]; [discriminate|].
  destruct (existsb (has_id (BObjectID (insertedID fresh u))) c);
    [discriminate|].
  intros H. injection H as <- <-. repeat split.
Qed.

Lemma decodeInt_encodeInt (z : Z) : decodeInt (encodeInt z) = Some z.
Proof. unfold encodeInt. destruct (fitsIn32Bits z); reflexivity. Qed.

Lemma decodeElements_cons (k : string) (v : bson_value) (r : document)
  (u u' : User) :
  decodeElement k v u = Some u' ->
  decodeElements ((k, v) :: r) u = decodeElements r u'.
Proof. intros E. cbn [decodeElements]. rewrite E. reflexivity. Qed.

Lemma decodeElement_age (z : Z) (u : User) :
  decodeElement "age" (encodeInt z) u = Some (with_Age z u).
Proof.
  unfold decodeElement. change (bsonField "age") with (Some FAge).
  cbv beta iota. rewrite decodeInt_encodeInt. reflexivity.
Qed.

Lemma decodeElement_version (z : Z) (u : User) :
  decodeElement "version" (encodeInt z) u = Some (with_Version z u).
Proof.
  unfold decodeElement. change (bsonField "version") with (Some FVersion).
  cbv beta iota. rewrite decodeInt_encodeInt. reflexivity.
Qed.

(** A stored [User] decodes, to itself with its times in whole
    milliseconds. *)
Lemma Decode_storedDocument (id : ObjectID) (u : User) :
  Decode (storedDocument id u) =
  (mkUser id (Name u) (Email u) (Age u)
     (DateTimeToTime (NewDateTimeFromTime (CreatedAt u)))
     (DateTimeToTime (NewDateTimeFromTime (UpdatedAt u)))
     (Version u),
   None).
Proof.
  unfold Decode, storedDocument.
  rewrite (decodeElements_cons "_id" (BObjectID id) _ zeroUser
             (with_ID id zeroUser) eq_refl).
  cbn [app].
  rewrite (decodeElements_cons "name" (BString (Name u)) _
             (with_ID id zeroUser)
             (with_Name (Name u) (with_ID id zeroUser)) eq_refl).
  rewrite (decodeElements_cons "email" (BString (Email u)) _
             (with_Name (Name u) (with_ID id zeroUser))
             (with_Email (Email u)
                (with_Name (Name u) (with_ID id zeroUser))) eq_refl).
  set (u3 := with_Email (Email u) (with_Name (Name u) (with_ID id zeroUser))).
  assert (T : forall x,
             decodeElements
               [("created_at", encodeTime (CreatedAt u));
                ("updated_at", encodeTime (UpdatedAt u));
                ("version", encodeInt (Version u))] x =
             (with_Version (Version u)
                (with_UpdatedAt
                   (DateTimeToTime (NewDateTimeFromTime (UpdatedAt u)))
                   (with_CreatedAt
                      (DateTimeToTime (NewDateTimeFromTime (CreatedAt u)))
                      x)),
              None)).
  { intros x.
    rewrite (decodeElements_cons "created_at" (encodeTime (CreatedAt u)) _ x
               (with_CreatedAt
                  (DateTimeToTime (NewDateTimeFromTime (CreatedAt u))) x)
               eq_refl).
    rewrite (decodeElements_cons "updated_at" (encodeTime (UpdatedAt u)) _
               (with_CreatedAt
                  (DateTimeToTime (NewDateTimeFromTime (CreatedAt u))) x)
               (with_UpdatedAt
                  (DateTimeToTime (NewDateTimeFromTime (UpdatedAt u)))
                  (with_CreatedAt
                     (DateTimeToTime (NewDateTimeFromTime (CreatedAt u))) x))
               eq_refl).
    rewrite (decodeElements_cons _ _ _ _ _ (decodeElement_version _ _)).
    reflexivity. }
  destruct (Z.eqb (Age u) 0) eqn:A; cbn [app].
  - apply Z.eqb_eq in A. rewrite T. subst u3. cbn. rewrite A. reflexivity.
  - rewrite (decodeElements_cons _ _ _ _ _ (decodeElement_age _ _)), T.
    reflexivity.
Qed.

(** ** createUser *)

Lemma createUser_ok (now : Time) (fresh : ObjectID) (fault : option Fault)
  (r : Request) (c c' : collection) (resp : Response) :
  createUser now fresh fault r c = (c', resp) ->
  status resp = StatusOK ->
  exists u,
    decodeUserJSON (body r) = Some u /\
    existsb (has_id (BObjectID (insertedID fresh u))) c = false /\
    c' = (c ++ [storedDocument (insertedID fresh u) (stamped now u)]) /\
    resp = {| status := StatusOK;
              payload := PInsertOneResult (BObjectID (insertedID fresh u)) |}.
Proof.
  unfold createUser. intros H S.
  destruct (decodeUserJSON (body r)) as [u|].
  2:{ injection H as <- <-. discriminate S. }
  exists u. split; [reflexivity|]. cbv zeta in H.
  fold (stamped now u) in H.
  destruct (InsertOne fault fresh (marshalUser (stamped now u)) c)
    as [c1 [id|e]] eqn:I.
  - apply InsertOne_marshalUser in I. destruct I as (_ & E & -> & ->).
    injection H as <- <-. repeat split. exact E.
  - injection H as <- <-. discriminate S.
Qed.

Lemma lookup_storedDocument_created_at (id : ObjectID) (u : User) :
  lookup "created_at" (storedDocument id u) = Some (encodeTime (CreatedAt u)).
Proof. unfold storedDocument. destruct (Z.eqb (Age u) 0); reflexivity. Qed.

Lemma lookup_storedDocument_updated_at (id : ObjectID) (u : User) :
  lookup "updated_at" (storedDocument id u) = Some (encodeTime (UpdatedAt u)).
Proof. unfold storedDocument. destruct (Z.eqb (Age u) 0); reflexivity. Qed.

Lemma millisecond_floor (t : Time) :
  DateTimeToTime (NewDateTimeFromTime t) <= t <
  DateTimeToTime (NewDateTimeFromTime t) + 1000000.
Proof.
  unfold DateTimeToTime, NewDateTimeFromTime.
  pose proof (Z.div_mod t 1000000 ltac:(lia)) as E.
  pose proof (Z.mod_pos_bound t 1000000 ltac:(lia)) as B.
  lia.
Qed.

(** C4, as amended. A create answered with 200 has added one document
    whose created_at and updated_at are both the handling time in whole
    milliseconds, whatever the payload held for them: the two are equal,
    not after the handling time and less than a millisecond before it.
    For a request received at or before the handling time they are at or
    after the receipt time taken in whole milliseconds, and less than a
    millisecond before the receipt time itself. *)
Theorem C4_create_timestamps (now : Time) (fresh : ObjectID)
  (fault : option Fault) (r : Request) (c c' : collection) (resp : Response)
  (receipt : Time) :
  createUser now fresh fault r c = (c', resp) ->
  status resp = StatusOK ->
  receipt <= now ->
  exists d,
    c' = (c ++ [d]) /\
    lookup "created_at" d = Some (BDateTime (NewDateTimeFromTime now)) /\
    lookup "updated_at" d = Some (BDateTime (NewDateTimeFromTime now)) /\
    DateTimeToTime (NewDateTimeFromTime now) <= now /\
    NewDateTimeFromTime receipt <= NewDateTimeFromTime now /\
    receipt - 1000000 < DateTimeToTime (NewDateTimeFromTime now).
Proof.
  intros H S L.
  destruct (createUser_ok _ _ _ _ _ _ _ H S) as (u & _ & _ & -> & _).
  exists (storedDocument (insertedID fresh u) (stamped now u)).
  split; [reflexivity|].
  split; [apply lookup_storedDocument_created_at|].
  split; [apply lookup_storedDocument_updated_at|].
  pose proof (millisecond_floor now) as F.
  split; [lia|]. split; [|lia].
  unfold NewDateTimeFromTime. apply Z.div_le_mono; lia.
Qed.

(** The payload of the interface, name, email and an age, decodes to
    these three fields. *)
Lemma decodeUserJSON_payload (name email : string) (age : Z) :
  fitsInt64 age = true ->
  decodeUserJSON
    (Some (JObject [("name", JString name); ("email", JString email);
                    ("age", JInt age)])) =
  Some (mkUser NilObjectID name email age zeroTime zeroTime 0).
Proof.
  intros F. cbn [decodeUserJSON storeMembers].
  change (storeMember "name" (JString name) zeroUser)
    with (Some (with_Name name zeroUser)).
  cbv beta iota.
  change (storeMember "email" (JString email) (with_Name name zeroUser))
    with (Some (with_Email email (with_Name name zeroUser))).
  cbv beta iota.
  unfold storeMember. change (jsonField "age") with (Some FAge).
  cbv beta iota. unfold jsonStore, int_JSONStore. rewrite F. reflexivity.
Qed.

(** A time in whole milliseconds is in the same second, so in the same
    year. *)
Lemma yearInRange_milliseconds (t : Time) :
  yearInRange (DateTimeToTime (NewDateTimeFromTime t)) = yearInRange t.
Proof.
  unfold yearInRange, DateTimeToTime, NewDateTimeFromTime.
  replace (t / 1000000 * 1000000 / 1000000000) with (t / 1000000000);
    [reflexivity|].
  change 1000000000 with (1000 * 1000000) at 2.
  rewrite Z.div_mul_cancel_r by lia.
  rewrite Z.div_div by lia. reflexivity.
Qed.

(** A stored [User] that is read back encodes as JSON when its two times
    are in the years 0 to 9999. *)
Lemma encodesUser_stored (id : ObjectID) (name email : string) (age : Z)
  (t1 t2 : Time) (version : Z) :
  yearInRange t1 = true ->
  yearInRange t2 = true ->
  encodesUser (mkUser id name email age
                 (DateTimeToTime (NewDateTimeFromTime t1))
                 (DateTimeToTime (NewDateTimeFromTime t2)) version) = true.
Proof.
  intros Y1 Y2. unfold encodesUser. cbn [CreatedAt UpdatedAt].
  rewrite !yearInRange_milliseconds, Y1, Y2. reflexivity.
Qed.


(** ** The start-up sequence *)

Lemma lookup_backfill_age (d : document) :
  lookup "age" (backfill d) = Some (BInt32 0).
Proof. unfold backfill. cbn. rewrite lookup_set_field. reflexivity. Qed.

Lemma lookup_backfill_other (k : string) (d : document) :
  k <> "age" -> lookup k (backfill d) = lookup k d.
Proof.
  intros N. unfold backfill. cbn. apply lookup_set_field_other, N.
Qed.

Lemma createUsersCollection_ok (t1 t2 : Time) (fresh : ObjectID)
  (fault : option Fault) (c c' : collection) :
  createUsersCollection t1 t2 fresh fault c = (c', None) ->
  existsb (has_id (BObjectID fresh)) c = false /\
  c' = (c ++ [seedDocument fresh t1 t2]).
Proof.
  unfold createUsersCollection.
  destruct (InsertOne fault fresh (marshalUser (sampleUser t1 t2 1)) c)
    as [c1 [id|e]] eqn:I; [|discriminate].
  apply InsertOne_marshalUser in I. destruct I as (_ & E & -> & _).
  intros H. injection H as <-. split; [exact E|reflexivity].
Qed.

Lemma addAgeField_ok (fault : option ManyFault) (c c' : collection) :
  addAgeField fault c = (c', None) -> c' = map backfill c.
Proof.
  unfold addAgeField, UpdateMany.
  destruct fault as [msg|]; [discriminate|].
  intros H. injection H as <-. reflexivity.
Qed.

(** [main], when it gets as far as starting the listener. *)
Lemma main_started (e : StartupEnv) (c c' : collection) :
  main e c = (c', true) ->
  createUsersCollection (seed_t1 e) (seed_t2 e) (seed_id e) (seed_fault e) c =
    ((c ++ [seedDocument (seed_id e) (seed_t1 e) (seed_t2 e)]), None) /\
  c' = (map backfill (c ++ [seedDocument (seed_id e) (seed_t1 e) (seed_t2 e)])
        ++ [exampleDocument (example_id e) (example_t1 e) (example_t2 e)]).
Proof.
  unfold main.
  destruct (createUsersCollection (seed_t1 e) (seed_t2 e) (seed_id e)
              (seed_fault e) c) as [c1 [e1|]] eqn:S;
    [intros H; discriminate H|].
  destruct (createUsersCollection_ok _ _ _ _ _ _ S) as (_ & ->).
  destruct (addAgeField (backfill_fault e)
              (c ++ [seedDocument (seed_id e) (seed_t1 e) (seed_t2 e)]))
    as [c2 [e2|]] eqn:B; [intros H; discriminate H|].
  apply addAgeField_ok in B. subst c2.
  destruct (InsertOne (example_fault e) (example_id e)
              (marshalUser (sampleUser (example_t1 e) (example_t2 e) 0))
              (map backfill
                 (c ++ [seedDocument (seed_id e) (seed_t1 e) (seed_t2 e)])))
    as [c3 [id|e3]] eqn:I; [|intros H; discriminate H].
  apply InsertOne_marshalUser in I. destruct I as (_ & _ & -> & _).
  intros H. injection H as <-. split; reflexivity.
Qed.

(** C3, as amended. When the start-up sequence completes, every document
    that was in the collection when the backfill step ran, the seed
    document included, has an age field equal to 0; the example user that
    [main] inserts after the backfill is stored without an age field and
    decodes with Age 0. *)
Theorem C3_age_after_startup (e : StartupEnv) (c c' : collection) :
  main e c = (c', true) ->
  exists backfilled example,
    c' = (backfilled ++ [example]) /\
    List.length backfilled = S (List.length c) /\
    (forall d, In d backfilled -> lookup "age" d = Some (BInt32 0)) /\
    lookup "age" example = None /\
    Age (fst (Decode example)) = 0.
Proof.
  intros H. destruct (main_started _ _ _ H) as (_ & ->).
  exists (map backfill
            (c ++ [seedDocument (seed_id e) (seed_t1 e) (seed_t2 e)])).
  exists (exampleDocument (example_id e) (example_t1 e) (example_t2 e)).
  split; [reflexivity|]. split.
  { rewrite length_map, length_app. cbn [List.length]. lia. }
  split.
  { intros d I. apply in_map_iff in I. destruct I as (d0 & <- & _).
    apply lookup_backfill_age. }
  split; reflexivity.
Qed.

Lemma isSample_backfill (d : document) : isSample (backfill d) = isSample d.
Proof.
  unfold isSample.
  rewrite !lookup_backfill_other by discriminate. reflexivity.
Qed.

Lemma countSample_backfill (c : collection) :
  countSample (map backfill c) = countSample c.
Proof.
  unfold countSample. induction c as [|d c IH]; [reflexivity|].
  cbn [map filter]. rewrite isSample_backfill.
  destruct (isSample d); cbn [List.length]; rewrite IH; reflexivity.
Qed.

Lemma countSample_app (a b : collection) :
  countSample (a ++ b) = (countSample a + countSample b)%nat.
Proof. unfold countSample. rewrite filter_app, length_app. reflexivity. Qed.

Lemma countSample_main (e : StartupEnv) (c c' : collection) :
  main e c = (c', true) -> countSample c' = S (countSample c).
Proof.
  intros H. destruct (main_started _ _ _ H) as (_ & ->).
  rewrite countSample_app, countSample_backfill, countSample_app.
  change (countSample [seedDocument (seed_id e) (seed_t1 e) (seed_t2 e)])
    with 1%nat.
  change (countSample
            [exampleDocument (example_id e) (example_t1 e) (example_t2 e)])
    with 0%nat.
  lia.
Qed.

(** C9. Whatever the collection holds, a seed step that succeeds adds one
    document: John Doe, version 1, created_at and updated_at the two
    readings of the clock (in whole milliseconds). So a second run of the
    start-up sequence, from the state the first left, adds a second
    sample document: each run raises the number of sample documents by
    one. *)
Theorem C9_seed_not_idempotent (e1 e2 : StartupEnv) (c c1 c2 : collection) :
  main e1 c = (c1, true) ->
  main e2 c1 = (c2, true) ->
  createUsersCollection (seed_t1 e1) (seed_t2 e1) (seed_id e1)
    (seed_fault e1) c =
    ((c ++ [seedDocument (seed_id e1) (seed_t1 e1) (seed_t2 e1)]), None) /\
  createUsersCollection (seed_t1 e2) (seed_t2 e2) (seed_id e2)
    (seed_fault e2) c1 =
    ((c1 ++ [seedDocument (seed_id e2) (seed_t1 e2) (seed_t2 e2)]),
     None) /\
  countSample c1 = S (countSample c) /\
  countSample c2 = S (S (countSample c)).
Proof.
  intros H1 H2.
  split; [apply (main_started _ _ _ H1)|].
  split; [apply (main_started _ _ _ H2)|].
  rewrite (countSample_main _ _ _ H2), (countSample_main _ _ _ H1).
  split; reflexivity.
Qed.

End Codec.

(** * Further properties of the handlers and of the start-up sequence *)

Section Extras.

Context {ext : Externals}.

(** ** Lists of documents *)

Lemma set_field_same (k : string) (v : bson_value) (d : document) :
  lookup k d = Some v -> set_field k v d = d.
Proof.
  induction d as [|[k0 v0] d IH]; cbn [lookup set_field]; [discriminate|].
  destruct (String.eqb k k0); intros H.
  - injection H as ->. reflexivity.
  - rewrite (IH H). reflexivity.
Qed.

Lemma set_field_twice (k : string) (v1 v2 : bson_value) (d : document) :
  set_field k v2 (set_field k v1 d) = set_field k v2 d.
Proof.
  induction d as [|[k0 v0] d IH]; cbn [set_field].
  - rewrite String.eqb_refl. reflexivity.
  - destruct (String.eqb k k0) eqn:E; cbn [set_field]; rewrite E.
    + reflexivity.
    + rewrite IH. reflexivity.
Qed.

Lemma updateFirst_length (p : document -> bool) (f : document -> document)
  (c : collection) :
  List.length (fst (updateFirst p f c)) = List.length c.
Proof.
  induction c as [|d c IH]; cbn [updateFirst]; [reflexivity|].
  destruct (p d); [reflexivity|].
  destruct (updateFirst p f c) as [r n]. cbn [fst List.length] in *.
  rewrite IH. reflexivity.
Qed.

Lemma updateFirst_ids (p : document -> bool) (f : document -> document)
  (c : collection) :
  (forall d, lookup "_id" (f d) = lookup "_id" d) ->
  map (lookup "_id") (fst (updateFirst p f c)) = map (lookup "_id") c.
Proof.
  intros F. induction c as [|d c IH]; cbn [updateFirst]; [reflexivity|].
  destruct (p d).
  - cbn [fst map]. rewrite F. reflexivity.
  - destruct (updateFirst p f c) as [r n]. cbn [fst map] in *.
    rewrite IH. reflexivity.
Qed.

Lemma updateFirst_twice (p : document -> bool) (f1 f2 : document -> document)
  (c : collection) :
  (forall d, p (f1 d) = p d) ->
  (forall d, f2 (f1 d) = f2 d) ->
  updateFirst p f2 (fst (updateFirst p f1 c)) = updateFirst p f2 c.
Proof.
  intros P F. induction c as [|d c IH]; cbn [updateFirst]; [reflexivity|].
  destruct (p d) eqn:Pd.
  - cbn [fst updateFirst]. rewrite P, Pd, F. reflexivity.
  - destruct (updateFirst p f1 c) as [r n]. cbn [fst] in *.
    cbn [updateFirst]. rewrite Pd, IH. reflexivity.
Qed.

Lemma deleteFirst_some (p : document -> bool) (c : collection) (d : document) :
  find p c = Some d ->
  exists pre post,
    c = pre ++ d :: post /\ deleteFirst p c = (pre ++ post, 1).
Proof.
  induction c as [|x c IH]; cbn [find deleteFirst]; [discriminate|].
  destruct (p x).
  - intros H. injection H as ->. exists [], c. split; reflexivity.
  - intros H. destruct (IH H) as (pre & post & -> & D).
    exists (x :: pre), post. rewrite D. split; reflexivity.
Qed.

Lemma deleteFirst_app_last (p : document -> bool) (c : collection)
  (d : document) :
  find p c = None -> p d = true -> deleteFirst p (c ++ [d]) = (c, 1).
Proof.
  intros N P. induction c as [|x c IH]; cbn [app deleteFirst find] in *.
  - rewrite P. reflexivity.
  - destruct (p x); [discriminate|]. rewrite (IH N). reflexivity.
Qed.

Lemma find_app_skip (p : document -> bool) (pre post : collection)
  (x : document) :
  forallb (fun y => negb (p y)) pre = true ->
  find p (pre ++ x :: post) = if p x then Some x else find p post.
Proof.
  induction pre as [|y pre IH]; cbn [forallb app find]; [reflexivity|].
  destruct (p y); cbn [negb andb]; [discriminate|]. exact IH.
Qed.

(** ** Equality of identifiers *)

Lemma oid_eqb_sym (a b : ObjectID) : oid_eqb a b = oid_eqb b a.
Proof.
  unfold oid_eqb, bytes_eqb.
  destruct (list_eq_dec byte_eq_dec (oid_bytes a) (oid_bytes b));
    destruct (list_eq_dec byte_eq_dec (oid_bytes b) (oid_bytes a));
    congruence.
Qed.

Lemma bson_eqb_sym (a b : bson_value) : bson_eqb a b = bson_eqb b a.
Proof.
  destruct a, b; cbn [bson_eqb]; try reflexivity;
    try apply String.eqb_sym; try apply Z.eqb_sym; apply oid_eqb_sym.
Qed.

Lemma matches_id_lookup (o : ObjectID) (d : document) :
  matches_id o d = true -> lookup "_id" d = Some (BObjectID o).
Proof.
  unfold matches_id. destruct (lookup "_id" d) as [v|]; [|discriminate].
  destruct v; cbn [bson_eqb]; try discriminate.
  intros E. apply oid_eqb_eq in E. subst. reflexivity.
Qed.

Lemma existsb_has_id_ids (v : bson_value) (c1 c2 : collection) :
  map (lookup "_id") c1 = map (lookup "_id") c2 ->
  existsb (has_id v) c1 = existsb (has_id v) c2.
Proof.
  revert c2. induction c1 as [|d1 c1 IH]; intros [|d2 c2] H;
    try discriminate; [reflexivity|].
  cbn [map] in H. injection H as H1 H2. cbn [existsb].
  rewrite (IH _ H2). unfold has_id. rewrite H1. reflexivity.
Qed.

Lemma unique_ids_ids (c1 c2 : collection) :
  map (lookup "_id") c1 = map (lookup "_id") c2 ->
  unique_ids c1 = unique_ids c2.
Proof.
  revert c2. induction c1 as [|d1 c1 IH]; intros [|d2 c2] H;
    try discriminate; [reflexivity|].
  cbn [map] in H. injection H as H1 H2. cbn [unique_ids].
  rewrite H1, (IH _ H2). destruct (lookup "_id" d2) as [v|]; [|reflexivity].
  rewrite (existsb_has_id_ids v _ _ H2). reflexivity.
Qed.

Lemma unique_ids_app_last (c : collection) (d : document) (id : bson_value) :
  unique_ids c = true ->
  lookup "_id" d = Some id ->
  existsb (has_id id) c = false ->
  unique_ids (c ++ [d]) = true.
Proof.
  intros U L E. induction c as [|x c IH]; cbn [app unique_ids existsb] in *.
  - rewrite L. reflexivity.
  - destruct (lookup "_id" x) as [v|] eqn:Lx; [|discriminate].
    apply andb_true_iff in U. destruct U as [U1 U2].
    apply orb_false_iff in E. destruct E as [E1 E2].
    rewrite (IH U2 E2), andb_true_r.
    rewrite existsb_app. cbn [existsb]. rewrite orb_false_r.
    apply negb_true_iff in U1. rewrite U1. cbn [orb].
    unfold has_id in E1 |- *. rewrite Lx in E1. rewrite L.
    rewrite bson_eqb_sym, E1. reflexivity.
Qed.

Lemma existsb_deleteFirst (q p : document -> bool) (c : collection) :
  existsb q c = false -> existsb q (fst (deleteFirst p c)) = false.
Proof.
  induction c as [|x c IH]; cbn [existsb deleteFirst]; [reflexivity|].
  intros E. apply orb_false_iff in E. destruct E as [E1 E2].
  destruct (p x); [exact E2|].
  destruct (deleteFirst p c) as [r n]. cbn [fst existsb] in *.
  rewrite E1, (IH E2). reflexivity.
Qed.

Lemma unique_ids_deleteFirst (p : document -> bool) (c : collection) :
  unique_ids c = true -> unique_ids (fst (deleteFirst p c)) = true.
Proof.
  induction c as [|x c IH]; cbn [unique_ids deleteFirst]; [reflexivity|].
  destruct (lookup "_id" x) as [v|] eqn:Lx; [|discriminate].
  intros U. apply andb_true_iff in U. destruct U as [U1 U2].
  destruct (p x); [exact U2|].
  pose proof (existsb_deleteFirst (has_id v) p c) as D.
  destruct (deleteFirst p c) as [r n]. cbn [fst unique_ids] in *.
  rewrite Lx, (IH U2), andb_true_r.
  apply negb_true_iff in U1. rewrite (D U1). reflexivity.
Qed.

Lemma find_deleteFirst_unique (o : ObjectID) (c : collection) :
  unique_ids c = true ->
  find (matches_id o) (fst (deleteFirst (matches_id o) c)) = None.
Proof.
  induction c as [|x c IH]; cbn [unique_ids deleteFirst]; [reflexivity|].
  destruct (lookup "_id" x) as [v|] eqn:Lx; [|discriminate].
  intros U. apply andb_true_iff in U. destruct U as [U1 U2].
  destruct (matches_id o x) eqn:M.
  - cbn [fst]. apply matches_id_lookup in M. rewrite Lx in M.
    injection M as ->. apply negb_true_iff in U1.
    apply find_none_existsb. exact U1.
  - specialize (IH U2).
    destruct (deleteFirst (matches_id o) c) as [r n]. cbn [fst find] in *.
    rewrite M. exact IH.
Qed.

(** ** updateUser *)

(** Goals that compare two status codes, or an option with [None]. *)
Ltac status_cases :=
  repeat match goal with
         | H : _ /\ _ |- _ => destruct H
         | H : exists _, _ |- _ => destruct H
         end;
  try reflexivity; try discriminate; try congruence;
  try (exfalso; congruence).

Lemma lookup_id_updateFields (name : string) (now : Time) (d : document) :
  lookup "_id" (apply_set (updateFields name now) d) = lookup "_id" d.
Proof. apply lookup_updateFields_other; discriminate. Qed.

(** X2. [updateUser] never adds or removes a document and never touches
    an identifier (there is no upsert): whatever the request and the
    outcome of the store call, the collection keeps its length and the
    [_id] of every document, in order. *)
Theorem updateUser_keeps_ids (now : Time) (fault : option Fault)
  (r : Request) (c : collection) :
  List.length (fst (updateUser now fault r c)) = List.length c /\
  map (lookup "_id") (fst (updateUser now fault r c)) = map (lookup "_id") c.
Proof.
  assert (A : forall name,
             List.length
               (fst (updateFirst
                       (matches_id (fst (ObjectIDFromHex (query_id r))))
                       (apply_set (updateFields name now)) c)) =
             List.length c /\
             map (lookup "_id")
               (fst (updateFirst
                       (matches_id (fst (ObjectIDFromHex (query_id r))))
                       (apply_set (updateFields name now)) c)) =
             map (lookup "_id") c).
  { intros name. split.
    - apply updateFirst_length.
    - apply updateFirst_ids. intros d. apply lookup_id_updateFields. }
  destruct (decodeUpdateJSON (body r)) as [name|] eqn:D.
  - destruct fault as [f|].
    + rewrite (updateUser_fault _ _ _ _ _ D). cbn [fst].
      destruct (applied f); [apply A|split; reflexivity].
    + rewrite (updateUser_decoded _ _ _ _ D). cbn [fst]. apply A.
  - rewrite (updateUser_undecoded _ _ _ _ D). split; reflexivity.
Qed.

Lemma apply_updateFields_twice (name : string) (t1 t2 : Time) (d : document) :
  apply_set (updateFields name t2) (apply_set (updateFields name t1) d) =
  apply_set (updateFields name t2) d.
Proof.
  cbn [apply_set updateFields fold_left fst snd].
  rewrite (set_field_same "name" (BString name)
             (set_field "updated_at" (encodeTime t1)
                (set_field "name" (BString name) d))).
  - apply set_field_twice.
  - rewrite lookup_set_field_other by discriminate.
    rewrite lookup_set_field. reflexivity.
Qed.

(** X3. The update is idempotent on the name, and the later time wins:
    the same request applied a second time, at [t2], gives the
    collection and the answer that it gives when applied once at [t2],
    whatever became of the first application. *)
Theorem updateUser_twice (t1 t2 : Time) (fault1 : option Fault) (r : Request)
  (c : collection) :
  updateUser t2 None r (fst (updateUser t1 fault1 r c)) =
  updateUser t2 None r c.
Proof.
  destruct (decodeUpdateJSON (body r)) as [name|] eqn:D.
  - assert (A : updateUser t2 None r
                  (fst (updateFirst
                          (matches_id (fst (ObjectIDFromHex (query_id r))))
                          (apply_set (updateFields name t1)) c)) =
                updateUser t2 None r c).
    { rewrite !(updateUser_decoded _ _ _ _ D). cbn [fst].
      rewrite updateFirst_twice; [reflexivity| |].
      - intros d. unfold matches_id. rewrite lookup_id_updateFields.
        reflexivity.
      - intros d. apply apply_updateFields_twice. }
    destruct fault1 as [f|].
    + rewrite (updateUser_fault _ _ _ _ _ D). cbn [fst].
      destruct (applied f); [exact A|reflexivity].
    + rewrite (updateUser_decoded t1 _ _ _ D). cbn [fst]. exact A.
  - rewrite (updateUser_undecoded t1 _ _ _ D). reflexivity.
Qed.

(** ** deleteUser *)

(** X4. [deleteUser] removes at most one document, the first that has the
    identifier, and leaves the others as they were and in their order,
    whatever the outcome of the store call. When the store call returns
    and a document matches, that document is removed; when no document
    matches, the collection is as before. A store call that errors is
    answered with 500. *)
Theorem deleteUser_frame (fault : option Fault) (r : Request)
  (c : collection) :
  (fst (deleteUser fault r c) = c \/
   exists pre d post,
     find (matches_id (fst (ObjectIDFromHex (query_id r)))) c = Some d /\
     c = pre ++ d :: post /\
     fst (deleteUser fault r c) = pre ++ post) /\
  (find (matches_id (fst (ObjectIDFromHex (query_id r)))) c <> None ->
   fault = None ->
   List.length c = S (List.length (fst (deleteUser fault r c)))) /\
  (find (matches_id (fst (ObjectIDFromHex (query_id r)))) c = None ->
   fst (deleteUser fault r c) = c) /\
  (fault <> None ->
   status (snd (deleteUser fault r c)) = StatusInternalServerError).
Proof.
  unfold deleteUser, DeleteOne.
  destruct (ObjectIDFromHex (query_id r)) as [objID ok]. cbn [fst].
  destruct (find (matches_id objID) c) as [d|] eqn:F.
  - destruct (deleteFirst_some _ _ _ F) as (pre & post & Ec & Ed).
    rewrite Ed. cbn [fst snd].
    destruct fault as [f|]; cbn [fst snd status http_Error].
    + split; [|split; [|split]]; intros; status_cases.
      destruct (applied f); [right|left; reflexivity].
      exists pre, d, post. repeat split. exact Ec.
    + split; [|split; [|split]]; intros; status_cases.
      * right. exists pre, d, post. repeat split. exact Ec.
      * rewrite Ec, !length_app. cbn [List.length]. lia.
  - rewrite (deleteFirst_none _ _ F). cbn [fst snd].
    destruct fault as [f|]; cbn [fst snd status http_Error].
    + split; [|split; [|split]]; intros; status_cases.
      * left. destruct (applied f); reflexivity.
      * destruct (applied f); reflexivity.
    + split; [|split; [|split]]; intros; status_cases.
      left. reflexivity.
Qed.

(** X5. In a collection whose identifiers are unique, a read after a
    delete of the same identifier answers 404, whatever the identifier
    string was. *)
Theorem deleteUser_then_getUserByID (fault : option string) (r r' : Request)
  (c : collection) :
  unique_ids c = true ->
  query_id r' = query_id r ->
  status (getUserByID fault r' (fst (deleteUser None r c))) = StatusNotFound.
Proof.
  intros U Q. unfold getUserByID, deleteUser, DeleteOne, FindOne. rewrite Q.
  destruct (ObjectIDFromHex (query_id r)) as [objID ok].
  pose proof (find_deleteFirst_unique objID c U) as F.
  destruct (deleteFirst (matches_id objID) c) as [c' n]. cbn [fst] in *.
  destruct fault as [msg|]; [reflexivity|]. rewrite F. reflexivity.
Qed.

(** ** Identifiers that do not parse *)

(** X6. An identifier string that does not parse names the document whose
    identifier is the zero ObjectID: for the read, the update and the
    delete alike, a request with such a string does what the request
    with twenty-four zeros does. *)
Theorem unparsable_id_is_zero_id (now : Time) (rfault : option string)
  (fault : option Fault) (s : string) (b : option json) (c : collection) :
  snd (ObjectIDFromHex s) = false ->
  getUserByID rfault {| query_id := s; body := b |} c =
    getUserByID rfault {| query_id := Hex NilObjectID; body := b |} c /\
  updateUser now fault {| query_id := s; body := b |} c =
    updateUser now fault {| query_id := Hex NilObjectID; body := b |} c /\
  deleteUser fault {| query_id := s; body := b |} c =
    deleteUser fault {| query_id := Hex NilObjectID; body := b |} c.
Proof.
  intros P. pose proof (ObjectIDFromHex_failure s P) as Z.
  unfold getUserByID, updateUser, deleteUser. cbn [query_id body].
  rewrite ObjectIDFromHex_Hex.
  destruct (ObjectIDFromHex s) as [objID ok]. cbn [fst] in Z. subst objID.
  repeat split.
Qed.

(** ** createUser *)

Lemma createUser_decoded (now : Time) (fresh : ObjectID)
  (fault : option Fault) (r : Request) (c : collection) (u : User) :
  decodeUserJSON (body r) = Some u ->
  createUser now fresh fault r c =
  match fault with
  | Some f =>
      (if applied f
          && negb (existsb (has_id (BObjectID (insertedID fresh u))) c)
       then c ++ [storedDocument (insertedID fresh u) (stamped now u)]
       else c,
       http_Error (ErrStore (fault_msg f)) StatusInternalServerError)
  | None =>
      if existsb (has_id (BObjectID (insertedID fresh u))) c
      then (c, http_Error ErrDuplicateKey StatusInternalServerError)
      else (c ++ [storedDocument (insertedID fresh u) (stamped now u)],
            {| status := StatusOK;
               payload := PInsertOneResult
                            (BObjectID (insertedID fresh u)) |})
  end.
Proof.
  intros D. unfold createUser. rewrite D. cbv zeta.
  fold (stamped now u). unfold InsertOne. rewrite ensureID_marshalUser.
  change (insertedID fresh (stamped now u)) with (insertedID fresh u).
  destruct fault as [f|]; [reflexivity|].
  destruct (existsb (has_id (BObjectID (insertedID fresh u))) c); reflexivity.
Qed.

Lemma createUser_undecoded (now : Time) (fresh : ObjectID)
  (fault : option Fault) (r : Request) (c : collection) :
  decodeUserJSON (body r) = None ->
  createUser now fresh fault r c = (c, http_Error ErrJSON StatusBadRequest).
Proof. intros D. unfold createUser. rewrite D. reflexivity. Qed.

(** X7. [createUser] answers 400 exactly when the body does not decode,
    and 500 exactly when the body decodes and the insert fails: the
    store call errors, or the identifier under which the document would
    be stored is already in the collection. On 400 the collection is as
    before; on 200 it has exactly one document more, at its end; and in
    every case, also when the store call errors, the collection is as
    before or has one document more at its end, the documents before
    being untouched. *)
Theorem createUser_status (now : Time) (fresh : ObjectID)
  (fault : option Fault) (r : Request) (c : collection) :
  (status (snd (createUser now fresh fault r c)) = StatusBadRequest <->
   decodeUserJSON (body r) = None) /\
  (status (snd (createUser now fresh fault r c)) = StatusInternalServerError
   <->
   exists u,
     decodeUserJSON (body r) = Some u /\
     (fault <> None \/
      existsb (has_id (BObjectID (insertedID fresh u))) c = true)) /\
  (status (snd (createUser now fresh fault r c)) = StatusBadRequest ->
   fst (createUser now fresh fault r c) = c) /\
  (status (snd (createUser now fresh fault r c)) = StatusOK ->
   exists d, fst (createUser now fresh fault r c) = c ++ [d]) /\
  (fst (createUser now fresh fault r c) = c \/
   exists d, fst (createUser now fresh fault r c) = c ++ [d]).
Proof.
  destruct (decodeUserJSON (body r)) as [u|] eqn:D.
  - rewrite (createUser_decoded _ _ _ _ _ _ D).
    destruct fault as [f|].
    + cbn [fst snd status http_Error].
      split; [|split; [|split; [|split]]]; try split; intros; status_cases.
      * exists u. split; [reflexivity|]. left. discriminate.
      * destruct (applied f
                  && negb (existsb
                             (has_id (BObjectID (insertedID fresh u))) c));
          [right; eexists; reflexivity|left; reflexivity].
    + destruct (existsb (has_id (BObjectID (insertedID fresh u))) c) eqn:E;
        cbn [fst snd status http_Error].
      * split; [|split; [|split; [|split]]]; try split; intros; status_cases.
        -- exists u. split; [reflexivity|]. right. exact E.
        -- left. reflexivity.
      * split; [|split; [|split; [|split]]]; try split; intros; status_cases.
        -- match goal with H : _ \/ _ |- _ => destruct H end; congruence.
        -- eexists. reflexivity.
        -- right. eexists. reflexivity.
  - rewrite (createUser_undecoded _ _ _ _ _ D).
    cbn [fst snd status http_Error].
    split; [|split; [|split; [|split]]]; try split; intros; status_cases.
    left. reflexivity.
Qed.

Lemma storeMember_keeps (p : UserField -> bool) (proj : User -> string)
  (k : string) (v : json) (u u' : User) :
  (forall x w, proj (with_ID x w) = proj w) ->
  (forall x w, proj (with_Age x w) = proj w) ->
  (forall x w, proj (with_CreatedAt x w) = proj w) ->
  (forall x w, proj (with_UpdatedAt x w) = proj w) ->
  (forall x w, proj (with_Version x w) = proj w) ->
  (forall x w, p FName = false -> proj (with_Name x w) = proj w) ->
  (forall x w, p FEmail = false -> proj (with_Email x w) = proj w) ->
  match jsonField k with Some f => p f | None => false end = false ->
  storeMember k v u = Some u' ->
  proj u' = proj u.
Proof.
  intros HI HA HC HU HV HN HE P S. unfold storeMember in S.
  destruct (jsonField k) as [f|]; [|congruence].
  destruct f;
    match type of S with
    | option_map _ ?x = Some _ =>
        destruct x; cbn [option_map] in S; [|discriminate S];
        injection S as <-
    end; auto.
Qed.

Lemma storeMembers_keeps (p : UserField -> bool) (proj : User -> string)
  (m : list (string * json)) (u u' : User) :
  (forall x w, proj (with_ID x w) = proj w) ->
  (forall x w, proj (with_Age x w) = proj w) ->
  (forall x w, proj (with_CreatedAt x w) = proj w) ->
  (forall x w, proj (with_UpdatedAt x w) = proj w) ->
  (forall x w, proj (with_Version x w) = proj w) ->
  (forall x w, p FName = false -> proj (with_Name x w) = proj w) ->
  (forall x w, p FEmail = false -> proj (with_Email x w) = proj w) ->
  mentions p m = false ->
  storeMembers m u = Some u' ->
  proj u' = proj u.
Proof.
  intros HI HA HC HU HV HN HE. revert u.
  induction m as [|[k v] m IH]; intros u M S; cbn [storeMembers] in S.
  - congruence.
  - unfold mentions in M. cbn [existsb fst] in M.
    apply orb_false_iff in M. destruct M as [M1 M2].
    destruct (storeMember k v u) as [u1|] eqn:S1; [|discriminate].
    rewrite (IH u1 M2 S).
    apply (storeMember_keeps p proj k v u u1); assumption.
Qed.

(** X8. [createUser] asks for no field: a JSON object that decodes is
    stored also when it has no name or no email member, and the missing
    field is stored as the empty string. *)
Theorem createUser_missing_fields (now : Time) (fresh : ObjectID)
  (fault : option Fault) (r : Request) (c c' : collection) (resp : Response)
  (m : list (string * json)) :
  body r = Some (JObject m) ->
  createUser now fresh fault r c = (c', resp) ->
  status resp = StatusOK ->
  exists d,
    c' = c ++ [d] /\
    (mentions isNameField m = false -> lookup "name" d = Some (BString "")) /\
    (mentions isEmailField m = false ->
     lookup "email" d = Some (BString "")).
Proof.
  intros B H S.
  destruct (createUser_ok _ _ _ _ _ _ _ H S) as (u & D & _ & -> & _).
  rewrite B in D. cbn [decodeUserJSON] in D.
  exists (storedDocument (insertedID fresh u) (stamped now u)).
  split; [reflexivity|]. split; intros M.
  - change (lookup "name"
              (storedDocument (insertedID fresh u) (stamped now u)))
      with (Some (BString (Name u))).
    rewrite (storeMembers_keeps isNameField Name m zeroUser u); auto.
    discriminate.
  - change (lookup "email"
              (storedDocument (insertedID fresh u) (stamped now u)))
      with (Some (BString (Email u))).
    rewrite (storeMembers_keeps isEmailField Email m zeroUser u); auto.
    discriminate.
Qed.

Lemma lookup_storedDocument_age (id : ObjectID) (u : User) :
  lookup "age" (storedDocument id u) =
  if Z.eqb (Age u) 0 then None else Some (encodeInt (Age u)).
Proof. unfold storedDocument. destruct (Z.eqb (Age u) 0); reflexivity. Qed.

Lemma lookup_storedDocument_version (id : ObjectID) (u : User) :
  lookup "version" (storedDocument id u) = Some (encodeInt (Version u)).
Proof. unfold storedDocument. destruct (Z.eqb (Age u) 0); reflexivity. Qed.

(** X9. What a create answered with 200 has stored: the name and the
    email as decoded; the version as decoded (0 when the payload has
    none: the handler does not set it to 1); an age field only when the
    age is not zero; and as identifier the one of the payload when it
    has a non-zero one, the one the driver generates otherwise. *)
Theorem createUser_stored_fields (now : Time) (fresh : ObjectID)
  (fault : option Fault) (r : Request) (c c' : collection) (resp : Response)
  (sent : User) :
  decodeUserJSON (body r) = Some sent ->
  createUser now fresh fault r c = (c', resp) ->
  status resp = StatusOK ->
  exists id d,
    c' = c ++ [d] /\
    payload resp = PInsertOneResult (BObjectID id) /\
    id = (if IsZero (ID sent) then fresh else ID sent) /\
    lookup "_id" d = Some (BObjectID id) /\
    lookup "name" d = Some (BString (Name sent)) /\
    lookup "email" d = Some (BString (Email sent)) /\
    lookup "version" d = Some (encodeInt (Version sent)) /\
    (Age sent = 0 -> lookup "age" d = None) /\
    (Age sent <> 0 -> lookup "age" d = Some (encodeInt (Age sent))).
Proof.
  intros D H S.
  destruct (createUser_ok _ _ _ _ _ _ _ H S) as (u & D' & _ & -> & ->).
  rewrite D in D'. injection D' as <-.
  exists (insertedID fresh sent).
  exists (storedDocument (insertedID fresh sent) (stamped now sent)).
  split; [reflexivity|]. split; [reflexivity|]. split; [reflexivity|].
  split; [reflexivity|]. split; [reflexivity|]. split; [reflexivity|].
  split; [exact (lookup_storedDocument_version _ (stamped now sent))|].
  rewrite lookup_storedDocument_age.
  change (Age (stamped now sent)) with (Age sent).
  split; intros A.
  - rewrite A. reflexivity.
  - apply Z.eqb_neq in A. rewrite A. reflexivity.
Qed.

Lemma matches_id_storedDocument (id : ObjectID) (u : User) :
  matches_id id (storedDocument id u) = true.
Proof.
  change (matches_id id (storedDocument id u)) with (oid_eqb id id).
  apply oid_eqb_refl.
Qed.

(** X10. A delete by the identifier that a create returned undoes the
    create: the collection is again what it was before the create. *)
Theorem createUser_then_deleteUser (now : Time) (fresh : ObjectID)
  (fault : option Fault) (r : Request) (c c' : collection) (resp : Response)
  (id : ObjectID) (b : option json) :
  createUser now fresh fault r c = (c', resp) ->
  payload resp = PInsertOneResult (BObjectID id) ->
  deleteUser None {| query_id := Hex id; body := b |} c' =
  (c, {| status := StatusNoContent; payload := PEmpty |}).
Proof.
  intros H P.
  assert (S : status resp = StatusOK).
  { unfold createUser in H.
    destruct (decodeUserJSON (body r)) as [u|].
    - cbv zeta in H.
      destruct (InsertOne fault fresh _ c) as [c1 [i|e]];
        injection H as <- <-; [reflexivity|discriminate P].
    - injection H as <- <-. discriminate P. }
  destruct (createUser_ok _ _ _ _ _ _ _ H S) as (u & _ & E & -> & ->).
  cbn [payload] in P. injection P as <-.
  unfold deleteUser, DeleteOne. cbn [query_id].
  rewrite ObjectIDFromHex_Hex.
  rewrite deleteFirst_app_last.
  - reflexivity.
  - apply find_none_existsb. exact E.
  - apply matches_id_storedDocument.
Qed.

(** What [getAllUsers] has built when it returns a list. *)
Lemma getAllUsers_list (c : collection) (us : list User) :
  payload (getAllUsers None None c) = PUsers us ->
  us = map (fun d => fst (Decode d)) c /\ forallb encodesUser us = true.
Proof.
  unfold getAllUsers, Find, Encode, cursorDocuments. cbn [payload].
  destruct (forallb encodesUser (map (fun d => fst (Decode d)) c)) eqn:E;
    [|discriminate].
  intros H. injection H as <-. split; [reflexivity|exact E].
Qed.

(** X11. With a clock that reads a year from 0 to 9999: when
    [getAllUsers] returns a list (the iteration runs to its end and the
    list encodes), then after a create answered with 200 it returns that
    list with one entry more, at its end: the created user with the
    name, email, age and version decoded from the payload. *)
Theorem createUser_then_getAllUsers (now : Time) (fresh : ObjectID)
  (fault : option Fault) (r : Request) (c c' : collection) (resp : Response)
  (sent : User) (us : list User) :
  decodeUserJSON (body r) = Some sent ->
  createUser now fresh fault r c = (c', resp) ->
  status resp = StatusOK ->
  yearInRange now = true ->
  payload (getAllUsers None None c) = PUsers us ->
  exists id,
    payload resp = PInsertOneResult (BObjectID id) /\
    payload (getAllUsers None None c') =
      PUsers (us ++ [mkUser id (Name sent) (Email sent) (Age sent)
                       (DateTimeToTime (NewDateTimeFromTime now))
                       (DateTimeToTime (NewDateTimeFromTime now))
                       (Version sent)]).
Proof.
  intros D H S Y L.
  destruct (createUser_ok _ _ _ _ _ _ _ H S) as (u & D' & _ & -> & ->).
  rewrite D in D'. injection D' as <-.
  destruct (getAllUsers_list _ _ L) as [-> E].
  exists (insertedID fresh sent). split; [reflexivity|].
  unfold getAllUsers, Find, Encode, cursorDocuments. cbn [payload].
  rewrite map_app. cbn [map]. rewrite Decode_storedDocument. cbn [fst].
  change (CreatedAt (stamped now sent)) with now.
  change (UpdatedAt (stamped now sent)) with now.
  rewrite forallb_app, E. cbn [forallb].
  rewrite (encodesUser_stored _ _ _ _ _ _ _ Y Y). reflexivity.
Qed.

(** ** An update read back *)

Lemma apply_updateFields_storedDocument (name : string) (now : Time)
  (id : ObjectID) (u : User) :
  apply_set (updateFields name now) (storedDocument id u) =
  storedDocument id (with_UpdatedAt now (with_Name name u)).
Proof.
  unfold storedDocument.
  change (Age (with_UpdatedAt now (with_Name name u))) with (Age u).
  destruct (Z.eqb (Age u) 0); reflexivity.
Qed.

(** X12. With times in the years 0 to 9999, a user stored by
    [createUser], updated and read back: the read answers 200 with the new name and the time of the update (in whole
    milliseconds) as UpdatedAt, and with the identifier, email, age,
    version and CreatedAt that were stored. *)
Theorem updateUser_then_getUserByID (now : Time) (id : ObjectID) (u : User)
  (name : string) (b b' : option json) (c : collection) :
  decodeUpdateJSON b = Some name ->
  find (matches_id id) c = Some (storedDocument id u) ->
  yearInRange (CreatedAt u) = true ->
  yearInRange now = true ->
  getUserByID None {| query_id := Hex id; body := b' |}
    (fst (updateUser now None {| query_id := Hex id; body := b |} c)) =
  {| status := StatusOK;
     payload :=
       PUser (mkUser id name (Email u) (Age u)
                (DateTimeToTime (NewDateTimeFromTime (CreatedAt u)))
                (DateTimeToTime (NewDateTimeFromTime now))
                (Version u)) |}.
Proof.
  intros D F Y1 Y2.
  rewrite (updateUser_decoded now {| query_id := Hex id; body := b |} c name D).
  cbn [fst query_id]. rewrite ObjectIDFromHex_Hex. cbn [fst].
  destruct (updateFirst_some _ (apply_set (updateFields name now)) _ _ F)
    as (pre & post & _ & -> & _ & N).
  cbn [fst]. unfold getUserByID, FindOne. cbn [query_id].
  rewrite ObjectIDFromHex_Hex, (find_app_skip _ _ _ _ N).
  rewrite apply_updateFields_storedDocument, matches_id_storedDocument.
  rewrite Decode_storedDocument.
  change (CreatedAt (with_UpdatedAt now (with_Name name u)))
    with (CreatedAt u).
  change (UpdatedAt (with_UpdatedAt now (with_Name name u))) with now.
  rewrite (encodesUser_stored _ _ _ _ _ _ _ Y1 Y2). reflexivity.
Qed.

(** ** getUserByID and getAllUsers *)


(** ** The backfill step *)

Lemma updateWhere_length (sel : list bool) (f : document -> document)
  (c : collection) :
  List.length (updateWhere sel f c) = List.length c.
Proof.
  revert sel. induction c as [|d c IH]; intros [|b sel];
    cbn [updateWhere List.length]; try reflexivity.
  rewrite IH. reflexivity.
Qed.

Lemma updateWhere_nth (sel : list bool) (f : document -> document)
  (c : collection) (i : nat) (d : document) :
  nth_error c i = Some d ->
  nth_error (updateWhere sel f c) i = Some d \/
  nth_error (updateWhere sel f c) i = Some (f d).
Proof.
  revert sel i. induction c as [|x c IH]; intros sel i H.
  - destruct i; discriminate H.
  - destruct sel as [|b sel]; [left; exact H|].
    cbn [updateWhere]. destruct i as [|i]; cbn [nth_error] in *.
    + injection H as ->. destruct b; [right|left]; reflexivity.
    + apply IH, H.
Qed.

Lemma updateWhere_ids (sel : list bool) (f : document -> document)
  (c : collection) :
  (forall d, lookup "_id" (f d) = lookup "_id" d) ->
  map (lookup "_id") (updateWhere sel f c) = map (lookup "_id") c.
Proof.
  intros F. revert sel. induction c as [|d c IH]; intros [|b sel];
    cbn [updateWhere map]; try reflexivity.
  rewrite IH. destruct b; [rewrite F|]; reflexivity.
Qed.

(** What [addAgeField] makes of the collection: every document is
    backfilled, or, when the store call errors, some are. *)
Lemma addAgeField_collection (fault : option ManyFault) (c : collection) :
  fst (addAgeField fault c) =
  match fault with
  | Some f => updateWhere (reached f) backfill c
  | None => map backfill c
  end.
Proof. unfold addAgeField, UpdateMany. destruct fault; reflexivity. Qed.

(** X14. [addAgeField] keeps the number and the order of the documents
    and every field other than age, whatever the outcome of the store
    call. When the store call returns, it has set the age of every
    document to 0 whatever it was; when the store call errors, each
    document is as before or has its age set to 0, and the error is
    returned. *)
Theorem addAgeField_frame (fault : option ManyFault) (c : collection) :
  List.length (fst (addAgeField fault c)) = List.length c /\
  (forall i d,
      nth_error c i = Some d ->
      exists d',
        nth_error (fst (addAgeField fault c)) i = Some d' /\
        (forall k, k <> "age" -> lookup k d' = lookup k d) /\
        (d' = d \/ lookup "age" d' = Some (BInt32 0)) /\
        (fault = None -> lookup "age" d' = Some (BInt32 0))) /\
  (snd (addAgeField fault c) = None <-> fault = None).
Proof.
  rewrite addAgeField_collection. split; [|split].
  - destruct fault as [f|]; [apply updateWhere_length|apply length_map].
  - intros i d H. destruct fault as [f|].
    + destruct (updateWhere_nth (reached f) backfill c i d H) as [E|E].
      * exists d. split; [exact E|]. split; [reflexivity|].
        split; [left; reflexivity|discriminate].
      * exists (backfill d). split; [exact E|].
        split; [intros k N; apply lookup_backfill_other, N|].
        split; [right; apply lookup_backfill_age|discriminate].
    + exists (backfill d). split; [rewrite nth_error_map, H; reflexivity|].
      split; [intros k N; apply lookup_backfill_other, N|].
      split; [right|intros _]; apply lookup_backfill_age.
  - unfold addAgeField, UpdateMany.
    destruct fault as [f|]; cbn [snd]; split; intros; status_cases.
Qed.

Lemma backfill_twice (d : document) : backfill (backfill d) = backfill d.
Proof. unfold backfill. cbn. apply set_field_twice. Qed.

(** X15. The backfill step is idempotent: run a second time it leaves
    the collection as the first run made it. *)
Theorem addAgeField_idempotent (c : collection) :
  addAgeField None (fst (addAgeField None c)) =
  (fst (addAgeField None c), None).
Proof.
  unfold addAgeField, UpdateMany. cbn [fst].
  rewrite map_map. f_equal. apply map_ext. intros d. apply backfill_twice.
Qed.

(** ** The start-up sequence *)

Lemma nth_error_app_left (c l : collection) (i : nat) (d : document) :
  nth_error c i = Some d -> nth_error (c ++ l) i = Some d.
Proof.
  intros H. rewrite nth_error_app1; [exact H|].
  apply nth_error_Some. congruence.
Qed.

(** The collection that [main] leaves: the old one, perhaps the seed
    document after it; of these, each backfilled or not; perhaps the
    example user after them. *)
Lemma main_shape (e : StartupEnv) (c : collection) :
  exists l1 c2 l2,
    (List.length l1 <= 1)%nat /\
    List.length c2 = List.length (c ++ l1) /\
    (forall i d, nth_error (c ++ l1) i = Some d ->
                 nth_error c2 i = Some d \/
                 nth_error c2 i = Some (backfill d)) /\
    (List.length l2 <= 1)%nat /\
    fst (main e c) = c2 ++ l2.
Proof.
  unfold main, createUsersCollection, InsertOne.
  rewrite !ensureID_marshalUser.
  set (s := storedDocument _ (sampleUser (seed_t1 e) (seed_t2 e) 1)).
  set (x := storedDocument _ (sampleUser (example_t1 e) (example_t2 e) 0)).
  destruct (seed_fault e) as [f|].
  { destruct (applied f && negb (existsb _ c)); cbn [fst].
    - exists [s], (c ++ [s]), []. rewrite app_nil_r.
      repeat split; auto.
    - exists [], c, []. rewrite !app_nil_r. cbn [List.length].
      repeat split; auto. }
  destruct (existsb _ c).
  { exists [], c, []. rewrite !app_nil_r. cbn [fst List.length].
    repeat split; auto. }
  unfold addAgeField, UpdateMany.
  change (apply_set [("age", encodeInt 0)]) with backfill.
  destruct (backfill_fault e) as [f|].
  { exists [s], (updateWhere (reached f) backfill (c ++ [s])), [].
    rewrite app_nil_r. cbn [fst].
    repeat split; auto.
    - apply updateWhere_length.
    - intros i d H. apply updateWhere_nth, H. }
  assert (M : forall i d,
             nth_error (c ++ [s]) i = Some d ->
             nth_error (map backfill (c ++ [s])) i = Some d \/
             nth_error (map backfill (c ++ [s])) i = Some (backfill d)).
  { intros i d H. right. rewrite nth_error_map, H. reflexivity. }
  destruct (example_fault e) as [f|].
  { destruct (applied f && negb (existsb _ (map backfill (c ++ [s]))));
      cbn [fst].
    - exists [s], (map backfill (c ++ [s])), [x].
      repeat split; auto. apply length_map.
    - exists [s], (map backfill (c ++ [s])), []. rewrite app_nil_r.
      repeat split; auto. apply length_map. }
  destruct (existsb _ (map backfill (c ++ [s]))); cbn [fst].
  - exists [s], (map backfill (c ++ [s])), []. rewrite app_nil_r.
    repeat split; auto. apply length_map.
  - exists [s], (map backfill (c ++ [s])), [x].
    repeat split; auto. apply length_map.
Qed.

(** X16. [main] starts the listener exactly when its three store calls
    succeed: the seed insert, the backfill and the insert of the example
    user; the collection is then the old one and the seed document,
    backfilled, followed by the example user. Whether or not the
    listener starts, [main] removes nothing: every document that was in
    the collection is at its place, as it was or backfilled, and at most
    two documents are added after them. *)
Theorem main_outcome (e : StartupEnv) (c : collection) :
  let seeded :=
    c ++ [seedDocument (seed_id e) (seed_t1 e) (seed_t2 e)] in
  (snd (main e c) = true <->
   snd (createUsersCollection (seed_t1 e) (seed_t2 e) (seed_id e)
          (seed_fault e) c) = None /\
   backfill_fault e = None /\
   example_fault e = None /\
   existsb (has_id (BObjectID (example_id e))) (map backfill seeded) = false)
  /\
  (snd (main e c) = true ->
   fst (main e c) =
   map backfill seeded ++
   [exampleDocument (example_id e) (example_t1 e) (example_t2 e)]) /\
  (List.length c <= List.length (fst (main e c)) <= List.length c + 2)%nat /\
  (forall i d,
      nth_error c i = Some d ->
      nth_error (fst (main e c)) i = Some d \/
      nth_error (fst (main e c)) i = Some (backfill d)).
Proof.
  cbv zeta. split; [|split].
  - unfold main.
    destruct (createUsersCollection (seed_t1 e) (seed_t2 e) (seed_id e)
                (seed_fault e) c) as [c1 [e1|]] eqn:S; cbn [snd].
    { split; intros; status_cases. }
    destruct (createUsersCollection_ok _ _ _ _ _ _ S) as (_ & ->).
    unfold addAgeField, UpdateMany.
    change (apply_set [("age", encodeInt 0)]) with backfill.
    destruct (backfill_fault e) as [f|]; [split; intros; status_cases|].
    unfold InsertOne. rewrite ensureID_marshalUser.
    change (insertedID (example_id e)
              (sampleUser (example_t1 e) (example_t2 e) 0))
      with (example_id e).
    destruct (example_fault e) as [f|]; [split; intros; status_cases|].
    destruct (existsb (has_id (BObjectID (example_id e)))
                (map backfill
                   (c ++ [seedDocument (seed_id e) (seed_t1 e)
                            (seed_t2 e)]))); split; intros; status_cases.
    repeat split.
  - intros T. destruct (main e c) as [c' b] eqn:M. cbn [fst snd] in *.
    subst b. apply (main_started _ _ _ M).
  - destruct (main_shape e c) as (l1 & c2 & l2 & L1 & L2 & N & L3 & ->).
    rewrite length_app in *. split; [lia|].
    intros i d H.
    assert (B : (i < List.length c2)%nat).
    { rewrite L2.
      assert (i < List.length c)%nat by (apply nth_error_Some; congruence).
      lia. }
    rewrite nth_error_app1 by exact B.
    apply N, nth_error_app_left, H.
Qed.

(** ** Uniqueness of the identifiers *)

Lemma unique_ids_InsertOne (fault : option Fault) (fresh : ObjectID)
  (u : User) (c : collection) :
  unique_ids c = true ->
  unique_ids (fst (InsertOne fault fresh (marshalUser u) c)) = true.
Proof.
  intros U. unfold InsertOne. rewrite ensureID_marshalUser.
  assert (A : existsb (has_id (BObjectID (insertedID fresh u))) c = false ->
              unique_ids (c ++ [storedDocument (insertedID fresh u) u]) =
              true).
  { intros E.
    apply (unique_ids_app_last c _ (BObjectID (insertedID fresh u)) U);
      [reflexivity|exact E]. }
  destruct (existsb (has_id (BObjectID (insertedID fresh u))) c) eqn:E.
  - destruct fault as [f|]; [|exact U].
    rewrite andb_false_r. exact U.
  - destruct fault as [f|]; [|apply A; reflexivity].
    destruct (applied f); [apply A; reflexivity|exact U].
Qed.

Lemma unique_ids_addAgeField (fault : option ManyFault) (c : collection) :
  unique_ids (fst (addAgeField fault c)) = unique_ids c.
Proof.
  rewrite addAgeField_collection. apply unique_ids_ids.
  destruct fault as [f|].
  - apply updateWhere_ids. intros d. apply lookup_backfill_other.
    discriminate.
  - rewrite map_map. apply map_ext. intros d. apply lookup_backfill_other.
    discriminate.
Qed.

Lemma unique_ids_backfill (c : collection) :
  unique_ids (map backfill c) = unique_ids c.
Proof.
  apply unique_ids_ids. rewrite map_map. apply map_ext.
  intros d. apply lookup_backfill_other. discriminate.
Qed.

(** X17. No handler and no start-up step breaks the uniqueness of the
    identifiers: from a collection in which every document has an
    identifier of its own, [createUser], [updateUser], [deleteUser],
    [addAgeField] and [main] lead to such a collection again, whatever
    the request and whether or not the store calls succeed. *)
Theorem unique_ids_preserved (c : collection) :
  unique_ids c = true ->
  (forall now fresh fault r,
      unique_ids (fst (createUser now fresh fault r c)) = true) /\
  (forall now fault r, unique_ids (fst (updateUser now fault r c)) = true) /\
  (forall fault r, unique_ids (fst (deleteUser fault r c)) = true) /\
  (forall fault, unique_ids (fst (addAgeField fault c)) = true) /\
  (forall e, unique_ids (fst (main e c)) = true).
Proof.
  intros U. split; [|split; [|split; [|split]]].
  - intros now fresh fault r. unfold createUser.
    destruct (decodeUserJSON (body r)) as [u|]; [|exact U]. cbv zeta.
    pose proof (unique_ids_InsertOne fault fresh
                  (with_UpdatedAt (CreatedAt (with_CreatedAt now u))
                     (with_CreatedAt now u)) c U) as I.
    destruct (InsertOne fault fresh _ c) as [c1 [i|e]]; exact I.
  - intros now fault r.
    rewrite (unique_ids_ids _ c); [exact U|].
    apply updateUser_keeps_ids.
  - intros fault r. unfold deleteUser, DeleteOne.
    destruct (ObjectIDFromHex (query_id r)) as [objID ok].
    pose proof (unique_ids_deleteFirst (matches_id objID) c U) as D.
    destruct fault as [f|].
    + cbn [fst]. destruct (applied f); [exact D|exact U].
    + destruct (deleteFirst (matches_id objID) c) as [c1 n]. exact D.
  - intros fault. rewrite unique_ids_addAgeField. exact U.
  - intros e. unfold main, createUsersCollection.
    pose proof (unique_ids_InsertOne (seed_fault e) (seed_id e)
                  (sampleUser (seed_t1 e) (seed_t2 e) 1) c U) as I1.
    destruct (InsertOne (seed_fault e) (seed_id e) _ c) as [c1 [i1|e1]];
      cbn [fst] in I1; [|exact I1].
    pose proof (unique_ids_addAgeField (backfill_fault e) c1) as I2.
    rewrite I1 in I2.
    destruct (addAgeField (backfill_fault e) c1) as [c2 [e2|]];
      cbn [fst] in I2; [exact I2|].
    pose proof (unique_ids_InsertOne (example_fault e) (example_id e)
                  (sampleUser (example_t1 e) (example_t2 e) 0) c2 I2) as I3.
    destruct (InsertOne (example_fault e) (example_id e) _ c2)
      as [c3 [i3|e3]]; exact I3.
Qed.

End Extras.

(** * Closed instances

    The theorems above at concrete requests and collections, with
    [exampleExternals] for the library code. *)

#[local] Existing Instance exampleExternals.

(** C1, as the claim states it, fails: the collection holds Ann under
    [oidA], the update names [oidB], the store call returns, and the
    answer is 204, not 500. *)
Lemma C1_counterexample :
  find (matches_id (fst (ObjectIDFromHex (query_id (renameTo oidB "Anne")))))
    [annDocument] = None /\
  updateUser 9000000 None (renameTo oidB "Anne") [annDocument] =
    ([annDocument], {| status := 204; payload := PEmpty |}).
Proof. split; reflexivity. Qed.

Lemma C1_update_without_match_witness :
  updateUser 9000000 None (renameTo oidB "Anne") [annDocument] =
    ([annDocument], {| status := StatusNoContent; payload := PEmpty |}) /\
  updateUser 9000000 (Some connectionReset) (renameTo oidB "Anne")
    [annDocument] =
    ([annDocument],
     http_Error (ErrStore "connection reset") StatusInternalServerError).
Proof.
  split.
  - exact (proj1 (C1_update_without_match 9000000 None
                    (renameTo oidB "Anne") [annDocument] "Anne"
                    eq_refl eq_refl) eq_refl).
  - exact (proj2 (C1_update_without_match 9000000 (Some connectionReset)
                    (renameTo oidB "Anne") [annDocument] "Anne"
                    eq_refl eq_refl) connectionReset eq_refl).
Defined.

(** C2, as the claim states it, fails: of the two documents the first
    does not decode (its name is a number), and the list still has two
    entries, the first of them the struct with the identifier decoded
    and zero values elsewhere. *)
Lemma C2_counterexample :
  snd (Decode numberNamed) = Some (ErrDecode "name") /\
  snd (Decode bobDocument) = None /\
  getAllUsers None None [numberNamed; bobDocument] =
    {| status := 200;
       payload :=
         PUsers [mkUser oidA "" "" 0 zeroTime zeroTime 0;
                 mkUser oidB "Bob" "" 0 zeroTime zeroTime 0] |}.
Proof. repeat split. Qed.

(** C5, as the claim states it, fails: the document found decodes, its
    created_at is in the year 10000, and the answer is 200 with an empty
    body, not the document. *)
Lemma C5_counterexample :
  find (matches_id (fst (ObjectIDFromHex (query_id (readOf oidA)))))
    [oldDocument] = Some oldDocument /\
  snd (Decode oldDocument) = None /\
  getUserByID None (readOf oidA) [oldDocument] =
    {| status := 200; payload := PEmpty |}.
Proof. repeat split. Qed.

(** C3, as the claim states it, fails: after a start-up from the empty
    collection, the second document, the example user, has no age
    field. *)
Lemma C3_counterexample :
  main firstStart [] = (afterFirstStart, true) /\
  nth_error afterFirstStart 1 = Some (exampleDocument oidB 7000000 8000000) /\
  lookup "age" (exampleDocument oidB 7000000 8000000) = None.
Proof. repeat split. Qed.

Lemma C3_age_after_startup_witness :
  exists backfilled example,
    afterFirstStart = backfilled ++ [example] /\
    List.length backfilled = 1%nat /\
    (forall d, In d backfilled -> lookup "age" d = Some (BInt32 0)) /\
    lookup "age" example = None /\
    Age (fst (Decode example)) = 0.
Proof. exact (C3_age_after_startup firstStart [] afterFirstStart eq_refl). Defined.

(** C4, as the claim states it, fails: a request received 1.5 ms after
    the epoch and handled at 1.7 ms is stored with created_at and
    updated_at 1 ms, which is before the receipt. *)
Lemma C4_counterexample :
  1500000 <= 1700000 /\
  createUser 1700000 oidA None createAnn [] =
    ([annDocument],
     {| status := 200; payload := PInsertOneResult (BObjectID oidA) |}) /\
  lookup "created_at" annDocument = Some (BDateTime 1) /\
  lookup "updated_at" annDocument = Some (BDateTime 1) /\
  DateTimeToTime 1 < 1500000.
Proof. repeat split; discriminate. Qed.

Lemma C4_create_timestamps_witness :
  exists d,
    [annDocument] = [] ++ [d] /\
    lookup "created_at" d = Some (BDateTime (NewDateTimeFromTime 1700000)) /\
    lookup "updated_at" d = Some (BDateTime (NewDateTimeFromTime 1700000)) /\
    DateTimeToTime (NewDateTimeFromTime 1700000) <= 1700000 /\
    NewDateTimeFromTime 1500000 <= NewDateTimeFromTime 1700000 /\
    1500000 - 1000000 < DateTimeToTime (NewDateTimeFromTime 1700000).
Proof.
  apply (C4_create_timestamps 1700000 oidA None createAnn [] [annDocument]
           {| status := 200; payload := PInsertOneResult (BObjectID oidA) |}
           1500000).
  - reflexivity.
  - reflexivity.
  - vm_compute. discriminate.
Defined.

Lemma C6_update_frame_witness :
  [set_field "updated_at" (BDateTime 9)
     (set_field "name" (BString "Anne") annDocument)] = [annDocument] \/
  exists pre d d' post,
    [annDocument] = pre ++ d :: post /\
    [set_field "updated_at" (BDateTime 9)
       (set_field "name" (BString "Anne") annDocument)] = pre ++ d' :: post /\
    find (matches_id (fst (ObjectIDFromHex (query_id (renameTo oidA "Anne")))))
      [annDocument] = Some d /\
    (forall k, k <> "name" -> k <> "updated_at" ->
               lookup k d' = lookup k d) /\
    lookup "email" d' = lookup "email" d /\
    lookup "age" d' = lookup "age" d /\
    lookup "version" d' = lookup "version" d /\
    lookup "created_at" d' = lookup "created_at" d.
Proof.
  apply (C6_update_frame 9000000 None (renameTo oidA "Anne") [annDocument]
           _ {| status := 204; payload := PEmpty |}).
  - reflexivity.
  - reflexivity.
Defined.


Lemma C9_seed_not_idempotent_witness :
  createUsersCollection 5000000 6000000 oidA None [] =
    ([] ++ [seedDocument oidA 5000000 6000000], None) /\
  createUsersCollection 15000000 16000000 oidC None afterFirstStart =
    (afterFirstStart ++ [seedDocument oidC 15000000 16000000], None) /\
  countSample afterFirstStart = 1%nat /\
  countSample
    (map backfill (afterFirstStart ++ [seedDocument oidC 15000000 16000000])
     ++ [exampleDocument oidD 17000000 18000000]) = 2%nat.
Proof.
  exact (C9_seed_not_idempotent firstStart secondStart [] afterFirstStart
           _ eq_refl eq_refl).
Defined.

Lemma C10_update_without_name_witness :
  decodeUpdateJSON (Some (JObject [("Email", JString "q")])) = Some "" /\
  snd (updateUser 9000000 None
         {| query_id := Hex oidA;
            body := Some (JObject [("Email", JString "q")]) |}
         [annDocument]) =
    {| status := StatusNoContent; payload := PEmpty |} /\
  forall d,
    find (matches_id (fst (ObjectIDFromHex (Hex oidA)))) [annDocument] =
      Some d ->
    exists pre d' post,
      [annDocument] = pre ++ d :: post /\
      fst (updateUser 9000000 None
             {| query_id := Hex oidA;
                body := Some (JObject [("Email", JString "q")]) |}
             [annDocument]) = pre ++ d' :: post /\
      lookup "name" d' = Some (BString "") /\
      lookup "updated_at" d' = Some (BDateTime (NewDateTimeFromTime 9000000)).
Proof.
  exact (C10_update_without_name 9000000
           {| query_id := Hex oidA;
              body := Some (JObject [("Email", JString "q")]) |}
           [annDocument] [("Email", JString "q")] eq_refl eq_refl).
Defined.

(** ** Instances of the further properties *)

Lemma deleteUser_then_getUserByID_witness :
  status (getUserByID None (readOf oidA)
            (fst (deleteUser None (readOf oidA) [annDocument; bobDocument]))) =
  StatusNotFound.
Proof.
  exact (deleteUser_then_getUserByID None (readOf oidA) (readOf oidA)
           [annDocument; bobDocument] eq_refl eq_refl).
Defined.

Lemma unparsable_id_is_zero_id_witness :
  getUserByID None {| query_id := "zz"; body := None |} [annDocument] =
    getUserByID None {| query_id := Hex NilObjectID; body := None |}
      [annDocument] /\
  updateUser 9000000 None {| query_id := "zz"; body := None |} [annDocument] =
    updateUser 9000000 None {| query_id := Hex NilObjectID; body := None |}
      [annDocument] /\
  deleteUser None {| query_id := "zz"; body := None |} [annDocument] =
    deleteUser None {| query_id := Hex NilObjectID; body := None |}
      [annDocument].
Proof.
  exact (unparsable_id_is_zero_id 9000000 None None "zz" None [annDocument]
           eq_refl).
Defined.

Lemma createUser_missing_fields_witness :
  exists d,
    fst (createUser 1700000 oidA None createAged []) = [] ++ [d] /\
    (mentions isNameField [("age", JInt 7)] = false ->
     lookup "name" d = Some (BString "")) /\
    (mentions isEmailField [("age", JInt 7)] = false ->
     lookup "email" d = Some (BString "")).
Proof.
  exact (createUser_missing_fields 1700000 oidA None createAged []
           (fst (createUser 1700000 oidA None createAged []))
           (snd (createUser 1700000 oidA None createAged []))
           [("age", JInt 7)] eq_refl eq_refl eq_refl).
Defined.

Lemma createUser_stored_fields_witness :
  exists id d,
    [annDocument] = [] ++ [d] /\
    PInsertOneResult (BObjectID oidA) = PInsertOneResult (BObjectID id) /\
    id = (if IsZero (ID annUser) then oidA else ID annUser) /\
    lookup "_id" d = Some (BObjectID id) /\
    lookup "name" d = Some (BString (Name annUser)) /\
    lookup "email" d = Some (BString (Email annUser)) /\
    lookup "version" d = Some (encodeInt (Version annUser)) /\
    (Age annUser = 0 -> lookup "age" d = None) /\
    (Age annUser <> 0 -> lookup "age" d = Some (encodeInt (Age annUser))).
Proof.
  exact (createUser_stored_fields 1700000 oidA None createAnn [] [annDocument]
           {| status := 200; payload := PInsertOneResult (BObjectID oidA) |}
           annUser eq_refl eq_refl eq_refl).
Defined.

Lemma createUser_then_deleteUser_witness :
  deleteUser None {| query_id := Hex oidA; body := None |} [annDocument] =
  ([], {| status := StatusNoContent; payload := PEmpty |}).
Proof.
  exact (createUser_then_deleteUser 1700000 oidA None createAnn []
           [annDocument]
           {| status := 200; payload := PInsertOneResult (BObjectID oidA) |}
           oidA None eq_refl eq_refl).
Defined.

Lemma createUser_then_getAllUsers_witness :
  exists id,
    PInsertOneResult (BObjectID oidA) = PInsertOneResult (BObjectID id) /\
    payload (getAllUsers None None [bobDocument; annDocument]) =
      PUsers ([mkUser oidB "Bob" "" 0 zeroTime zeroTime 0]
              ++ [mkUser id (Name annUser) (Email annUser) (Age annUser)
                    (DateTimeToTime (NewDateTimeFromTime 1700000))
                    (DateTimeToTime (NewDateTimeFromTime 1700000))
                    (Version annUser)]).
Proof.
  exact (createUser_then_getAllUsers 1700000 oidA None createAnn [bobDocument]
           [bobDocument; annDocument]
           {| status := 200; payload := PInsertOneResult (BObjectID oidA) |}
           annUser [mkUser oidB "Bob" "" 0 zeroTime zeroTime 0]
           eq_refl eq_refl eq_refl eq_refl eq_refl).
Defined.

Lemma updateUser_then_getUserByID_witness :
  getUserByID None {| query_id := Hex oidA; body := None |}
    (fst (updateUser 9000000 None
            {| query_id := Hex oidA;
               body := Some (JObject [("name", JString "Anne")]) |}
            [bobDocument; annDocument])) =
  {| status := StatusOK;
     payload :=
       PUser (mkUser oidA "Anne" (Email annStored) (Age annStored)
                (DateTimeToTime (NewDateTimeFromTime (CreatedAt annStored)))
                (DateTimeToTime (NewDateTimeFromTime 9000000))
                (Version annStored)) |}.
Proof.
  exact (updateUser_then_getUserByID 9000000 oidA annStored "Anne"
           (Some (JObject [("name", JString "Anne")])) None
           [bobDocument; annDocument] eq_refl eq_refl eq_refl eq_refl).
Defined.


Lemma unique_ids_preserved_witness :
  (forall now fresh fault r,
      unique_ids
        (fst (createUser now fresh fault r [bobDocument; annDocument])) =
      true) /\
  (forall now fault r,
      unique_ids (fst (updateUser now fault r [bobDocument; annDocument])) =
      true) /\
  (forall fault r,
      unique_ids (fst (deleteUser fault r [bobDocument; annDocument])) =
      true) /\
  (forall fault,
      unique_ids (fst (addAgeField fault [bobDocument; annDocument])) =
      true) /\
  (forall e, unique_ids (fst (main e [bobDocument; annDocument])) = true).
Proof.
  exact (unique_ids_preserved [bobDocument; annDocument] eq_refl).
Defined.
